(** * BaseApiService: a static HTTP client wrapper (src/base-api-client.js)

    The class builds a URL from an origin and an endpoint, merges headers,
    attaches a JSON or a multipart body, hands the request to the platform's
    [fetch], parses the response body as JSON and either returns it or
    throws an [Error] carrying the response's metadata.

    The platform (URL parser, JSON codec, number printing, the network and
    the process environment) is an interface, [Platform]; the class itself is
    embedded function by function.  An [async] function is a computation
    that either returns a value (the promise resolves) or throws (the promise
    rejects); the platform calls it makes are recorded in order, so that the
    request handed to [fetch] can be observed. *)

From Stdlib Require Import ZArith String List.
From Stdlib Require Import Floats.PrimFloat.
From stdpp Require Import gmap strings list fin_maps pretty.

Open Scope string_scope.
Open Scope Z_scope.
Open Scope list_scope.
Set Warnings "-register-all".

(** ** JavaScript values *)

(** A [File] as an upload form carries it. *)
Record File := { file_name : string; file_type : string; file_content : string }.

(** The values the client handles: JSON values, [undefined], and files.
    An object is the list of its own enumerable properties in the order
    [Object.keys] enumerates them; a well-formed object has no key twice.
    A number is a binary64 float. *)
Inductive JsVal :=
| JUndefined
| JNull
| JBool (b : bool)
| JNum (n : float)
| JStr (s : string)
| JArr (elems : list JsVal)
| JObj (props : list (string * JsVal))
| JFile (f : File).

(** The context attached to a failed request: the [cause] of the error. *)
Module Cause.
Record t := { status : Z; statusText : string; url : string; errors : JsVal }.
End Cause.

(** What can be thrown.  [Error] is built by [handleResponse]; [TypeError]
    is raised by the language itself (reading a property of [null], turning
    an object into text); [Rejected] is a failure of a platform primitive
    (the [SyntaxError] of the JSON parser, the [TypeError] of the URL parser
    or of [fetch]), kept as the platform gave it. *)
Inductive JsError :=
| Error (message : string) (cause : Cause.t)
| TypeError
| Rejected (name message : string).

Inductive Completion (A : Type) :=
| Return (a : A)
| Throw (e : JsError).
Arguments Return {A} a.
Arguments Throw {A} e.

(** ** Platform objects *)

(** A parsed URL; [searchParams] is the list of its query parameters. *)
Record URL := {
  origin : string;
  pathname : string;
  searchParams : list (string * string);
  hash : string
}.

(** url.searchParams.append(name, value) *)
Definition searchParams_append (u : URL) (name value : string) : URL :=
  {| origin := origin u; pathname := pathname u;
     searchParams := searchParams u ++ [(name, value)]; hash := hash u |}.

(** A multipart form: its fields in order; a field is text or a file. *)
Inductive FormDataEntryValue :=
| FieldText (s : string)
| FieldFile (f : File).

Definition FormData := list (string * FormDataEntryValue).

Inductive BodyInit :=
| BodyText (s : string)
| BodyForm (form : FormData).

Module RequestInit.
Record t := {
  method : string;
  headers : gmap string string;
  body : option BodyInit
}.
End RequestInit.

Module Response.
Record t := { status : Z; statusText : string; url : string; body : string }.

(** response.ok: the status is in the range 200-299. *)
Definition ok (r : t) : bool := (200 <=? status r) && (status r <=? 299).
End Response.

(** The primitives the client calls. *)
Class Platform := {
  (** process.env.API_URL, [None] when the variable is not set *)
  process_env_API_URL : option string;
  (** new URL(input, base) *)
  URL_parse : string -> string -> Completion URL;
  (** JSON.stringify(value): a text, or [undefined] ([None]) *)
  JSON_stringify : JsVal -> Completion (option string);
  (** JSON.parse on the text of a response body *)
  JSON_parse : string -> Completion JsVal;
  (** Number.prototype.toString *)
  Number_toString : float -> string;
  (** the UTF-16 code units of a text, each as a text of one unit: what
      indexing a text gives *)
  String_code_units : string -> list string;
  (** what the network answers to a request *)
  network : URL -> RequestInit.t -> Completion Response.t
}.

(** ** Computations *)

(** The platform calls a computation makes. *)
Inductive Event :=
| NewURL (input base : string)
| Fetch (u : URL) (init : RequestInit.t).

(** A computation: the calls it made, in order, and how it completed. *)
Definition Js (A : Type) : Type := list Event * Completion A.

Definition ret {A} (a : A) : Js A := ([], Return a).
Definition throw {A} (e : JsError) : Js A := ([], Throw e).
Definition lift {A} (c : Completion A) : Js A := ([], c).

Definition bind {A B} (m : Js A) (k : A -> Js B) : Js B :=
  match m with
  | (t, Return a) => let '(t', c) := k a in (t ++ t', c)
  | (t, Throw e) => (t, Throw e)
  end.

Notation "'let*' x ':=' m 'in' k" := (bind m (fun x => k))
  (at level 10, x name, m at level 100, k at level 200).

Definition events {A} (m : Js A) : list Event := fst m.
Definition outcome {A} (m : Js A) : Completion A := snd m.

(** array.forEach threading the object the callback updates *)
Fixpoint forEach {A S} (xs : list A) (f : S -> A -> Js S) (s : S) : Js S :=
  match xs with
  | [] => ret s
  | x :: rest => let* s' := f s x in forEach rest f s'
  end.

(** ** Language semantics used by the class *)

Section Language.
Context `{Platform}.

(** a || b on an environment variable: a string or [undefined]; the empty
    string is falsy *)
Definition or_else (a : option string) (b : string) : string :=
  match a with
  | Some s => if decide (s = "") then b else s
  | None => b
  end.

(** The own enumerable properties of ToObject(v), in [Object.keys] order:
    the indices of an array or of a string, the properties of an object. *)
Definition OwnProperties (v : JsVal) : Completion (list (string * JsVal)) :=
  match v with
  | JUndefined | JNull => Throw TypeError
  | JObj props => Return props
  | JArr elems => Return (imap (fun i x => (pretty i, x)) elems)
  | JStr s => Return (imap (fun i c => (pretty i, JStr c)) (String_code_units s))
  | JBool _ | JNum _ | JFile _ => Return []
  end.

(** obj[key] on an object given as its property list; a missing key reads
    as [None] *)
Fixpoint lookup_property {V} (props : list (string * V)) (key : string) : option V :=
  match props with
  | [] => None
  | (k, v) :: rest => if decide (k = key) then Some v else lookup_property rest key
  end.

(** Object.keys(v) *)
Definition Object_keys (v : JsVal) : Completion (list string) :=
  match OwnProperties v with
  | Return props => Return (props.*1)
  | Throw e => Throw e
  end.

(** v[key], for a key that is an own enumerable property of [v] or that
    no built-in prototype defines (the class reads [message], [errors]
    and the keys [Object.keys] gave it): reading from [undefined] or
    [null] throws, a missing property reads as [undefined]. *)
Definition Get (v : JsVal) (key : string) : Completion JsVal :=
  match OwnProperties v with
  | Return props => Return (default JUndefined (lookup_property props key))
  | Throw e => Throw e
  end.

(** ToString(v).  An array joins its elements with a comma, [undefined]
    and [null] elements giving the empty text; an object without a
    [toString] of its own is [[object Object]]; an own [toString] property
    is data here, never a function, and the conversion then throws. *)
Fixpoint ToString (v : JsVal) : Completion string :=
  match v with
  | JUndefined => Return "undefined"
  | JNull => Return "null"
  | JBool true => Return "true"
  | JBool false => Return "false"
  | JNum n => Return (Number_toString n)
  | JStr s => Return s
  | JArr elems =>
      (fix join (xs : list JsVal) : Completion string :=
         match xs with
         | [] => Return ""
         | x :: rest =>
             let element :=
               match x with
               | JUndefined | JNull => Return ""
               | _ => ToString x
               end in
             match element with
             | Throw e => Throw e
             | Return s =>
                 match rest with
                 | [] => Return s
                 | _ =>
                     match join rest with
                     | Return r => Return (s +:+ "," +:+ r)
                     | Throw e => Throw e
                     end
                 end
             end
         end) elems
  | JObj props =>
      match lookup_property props "toString" with
      | Some _ => Throw TypeError
      | None => Return "[object Object]"
      end
  | JFile _ => Return "[object File]"
  end.

(** new Error(message, { cause }): no message when [message] is
    [undefined] (the error then reads the empty text), its text
    otherwise. *)
Definition Error_new (message : JsVal) (cause : Cause.t) : Completion JsError :=
  match message with
  | JUndefined => Return (Error "" cause)
  | _ =>
      match ToString message with
      | Return s => Return (Error s cause)
      | Throw e => Throw e
      end
  end.

(** formData.append(name, value): a file is kept, anything else is
    turned into text. *)
Definition FormData_append (form : FormData) (name : string) (value : JsVal)
  : Completion FormData :=
  match value with
  | JFile f => Return (form ++ [(name, FieldFile f)])
  | _ =>
      match ToString value with
      | Return s => Return (form ++ [(name, FieldText s)])
      | Throw e => Throw e
      end
  end.

(** { ...target, ...source }: the properties of [source] are copied over
    [target]; spreading [undefined] copies nothing *)
Definition spread (target : gmap string string) (source : option (gmap string string))
  : gmap string string :=
  match source with
  | Some h => h ∪ target
  | None => target
  end.

(** new URL(input, base) *)
Definition new_URL (input base : string) : Js URL :=
  ([NewURL input base], URL_parse input base).

(** fetch(url, init) *)
Definition fetch (u : URL) (init : RequestInit.t) : Js Response.t :=
  ([Fetch u init], network u init).

(** response.json() *)
Definition Response_json (r : Response.t) : Js JsVal :=
  lift (JSON_parse (Response.body r)).

End Language.

(** ** The request configuration *)

(** BaseQueryParams: a flat object of texts; a property may be present with
    the value [undefined] ([None]). *)
Definition QueryParams := list (string * option string).

Module RequestConfig.
Record t := {
  endpoint : string;
  (** absent: [JUndefined] *)
  data : JsVal;
  headers : option (gmap string string);
  query : option QueryParams
}.

(** { ...rcfg, headers: h } *)
Definition with_headers (rcfg : t) (h : gmap string string) : t :=
  {| endpoint := endpoint rcfg; data := data rcfg;
     headers := Some h; query := query rcfg |}.
End RequestConfig.

(** ** The class *)

Module BaseApiService.
Section Class.
Context `{Platform}.

Import RequestConfig.

(** process.env.API_URL || "http://localhost:3001" *)
Definition API_URL : string := or_else process_env_API_URL "http://localhost:3001".

Definition getHeaders (headers : option (gmap string string)) : gmap string string :=
  spread {[ "Content-Type" := "application/json" ]} headers.

Definition handleResponse (response : Response.t) : Js JsVal :=
  let* json := Response_json response in
  if negb (Response.ok response) then
    let* message := lift (Get json "message") in
    let* errors := lift (Get json "errors") in
    let* error :=
      lift (Error_new message
              {| Cause.status := Response.status response;
                 Cause.statusText := Response.statusText response;
                 Cause.url := Response.url response;
                 Cause.errors := errors |}) in
    throw error
  else ret json.

Definition get (rcfg : t) : Js JsVal :=
  let* url := new_URL (endpoint rcfg) API_URL in
  let* url :=
    match query rcfg with
    | Some q =>
        forEach (q.*1)
          (fun url key =>
             match lookup_property q key with
             | Some (Some value) => ret (searchParams_append url key value)
             | _ => ret url
             end) url
    | None => ret url
    end in
  let* response :=
    fetch url {| RequestInit.method := "GET";
                 RequestInit.headers := getHeaders (headers rcfg);
                 RequestInit.body := None |} in
  handleResponse response.

Definition post (rcfg : t) : Js JsVal :=
  let* url := new_URL (endpoint rcfg) API_URL in
  let headers := getHeaders (headers rcfg) in
  let* body := lift (JSON_stringify (data rcfg)) in
  let* response :=
    fetch url {| RequestInit.method := "POST";
                 RequestInit.headers := headers;
                 RequestInit.body := BodyText <$> body |} in
  handleResponse response.

Definition put (rcfg : t) : Js JsVal :=
  let* url := new_URL (endpoint rcfg) API_URL in
  let headers := getHeaders (headers rcfg) in
  let* body := lift (JSON_stringify (data rcfg)) in
  let* response :=
    fetch url {| RequestInit.method := "PUT";
                 RequestInit.headers := headers;
                 RequestInit.body := BodyText <$> body |} in
  handleResponse response.

Definition patch (rcfg : t) : Js JsVal :=
  let* url := new_URL (endpoint rcfg) API_URL in
  let headers := getHeaders (headers rcfg) in
  let* body := lift (JSON_stringify (data rcfg)) in
  let* response :=
    fetch url {| RequestInit.method := "PATCH";
                 RequestInit.headers := headers;
                 RequestInit.body := BodyText <$> body |} in
  handleResponse response.

Definition delete (rcfg : t) : Js JsVal :=
  let* url := new_URL (endpoint rcfg) API_URL in
  let* response :=
    fetch url {| RequestInit.method := "DELETE";
                 RequestInit.headers := getHeaders (headers rcfg);
                 RequestInit.body := None |} in
  handleResponse response.

Definition upload (rcfg : t) : Js JsVal :=
  let* url := new_URL (endpoint rcfg) API_URL in
  let formData : FormData := [] in
  let* keys := lift (Object_keys (data rcfg)) in
  let* formData :=
    forEach keys
      (fun formData key =>
         let* value := lift (Get (data rcfg) key) in
         lift (FormData_append formData key value)) formData in
  let* response :=
    fetch url {| RequestInit.method := "POST";
                 RequestInit.headers := getHeaders (headers rcfg);
                 RequestInit.body := Some (BodyForm formData) |} in
  handleResponse response.

(** The names of the static request methods; this[method] is [invoke]. *)
Inductive Method := GET | POST | PUT | PATCH | DELETE | UPLOAD.

Definition invoke (method : Method) : t -> Js JsVal :=
  match method with
  | GET => get
  | POST => post
  | PUT => put
  | PATCH => patch
  | DELETE => delete
  | UPLOAD => upload
  end.

(** The keys of the object withCredentials() returns. *)
Inductive CredentialedMethod := cGet | cPost | cPut | cPatch | cDelete.

Definition method_of (m : CredentialedMethod) : Method :=
  match m with
  | cGet => GET
  | cPost => POST
  | cPut => PUT
  | cPatch => PATCH
  | cDelete => DELETE
  end.

(** withCredentials(): the returned object, as the function from its five
    keys to the closures they hold; each closure is baseFn at the method
    of the same name. *)
Definition withCredentials : CredentialedMethod -> t -> Js JsVal :=
  let headers : gmap string string :=
    {[ "Content-Type" := "application/json"; "credentials" := "include" ]} in
  let baseFn (method : Method) (rcfg : t) :=
    invoke method
      (with_headers rcfg (spread (spread ∅ (RequestConfig.headers rcfg)) (Some headers))) in
  fun m rcfg => baseFn (method_of m) rcfg.

End Class.
End BaseApiService.

(** ** A platform to run examples on

    The URL parser keeps the base as origin and the input as path, the
    serializer prints every value as [data], numbers print as [0], and a
    text has one code unit per character, which holds of the ASCII texts of
    the examples; the environment variable, the JSON parser and the answer
    of the network are chosen per example. *)
Definition example_platform (env : option string)
    (parse : string -> Completion JsVal) (answer : Completion Response.t) : Platform :=
  {| process_env_API_URL := env;
     URL_parse input base :=
       Return {| origin := base; pathname := input; searchParams := []; hash := "" |};
     JSON_stringify v :=
       match v with JUndefined => Return None | _ => Return (Some "data") end;
     JSON_parse := parse;
     Number_toString _ := "0";
     String_code_units s := (fun c => String c EmptyString) <$> list_ascii_of_string s;
     network _ _ := answer |}.

(** A parser that knows three bodies. *)
Definition example_parse (s : string) : Completion JsVal :=
  if decide (s = "null") then Return JNull
  else if decide (s = "users") then
    Return (JObj [("message", JStr "ok"); ("data", JArr [JStr "Ada"])])
  else if decide (s = "invalid") then
    Return (JObj [("message", JStr "invalid name");
                  ("errors", JObj [("name", JStr "required")])])
  else Throw (Rejected "SyntaxError" "Unexpected end of JSON input").

Definition example_response (status : Z) (body : string) : Response.t :=
  {| Response.status := status; Response.statusText := "";
     Response.url := "http://localhost:3001/users"; Response.body := body |}.

Definition example_config (q : option QueryParams) (h : option (gmap string string))
    (d : JsVal) : RequestConfig.t :=
  {| RequestConfig.endpoint := "/users"; RequestConfig.data := d;
     RequestConfig.headers := h; RequestConfig.query := q |}.

(** The URL the example parser gives for [/users] at the default origin. *)
Definition users_url (params : list (string * string)) : URL :=
  {| origin := "http://localhost:3001"; pathname := "/users";
     searchParams := params; hash := "" |}.

(** The platform of the examples with the variable unset, answering with
    the given status and body. *)
Definition answering (status : Z) (body : string) : Platform :=
  example_platform None example_parse (Return (example_response status body)).

(** A platform whose URL parser rejects the endpoint [http://], which has
    no host, and is the example parser otherwise. *)
Definition strict_url_platform (answer : Completion Response.t) : Platform :=
  {| process_env_API_URL := None;
     URL_parse input base :=
       if decide (input = "http://") then Throw (Rejected "TypeError" "Invalid URL")
       else Return {| origin := base; pathname := input; searchParams := []; hash := "" |};
     JSON_stringify v :=
       match v with JUndefined => Return None | _ => Return (Some "data") end;
     JSON_parse := example_parse;
     Number_toString _ := "0";
     String_code_units s := (fun c => String c EmptyString) <$> list_ascii_of_string s;
     network _ _ := answer |}.

(** A parser for bodies that are not the usual envelope. *)
Definition edge_parse (s : string) : Completion JsVal :=
  if decide (s = "no message") then Return (JObj [("errors", JArr [JStr "late"])])
  else if decide (s = "object message") then
    Return (JObj [("message", JObj [("code", JStr "E1")])])
  else if decide (s = "list message") then
    Return (JObj [("message", JArr [JStr "a"; JNull; JBool true])])
  else Throw (Rejected "SyntaxError" "Unexpected token").

(** The platform of the examples reading bodies with [edge_parse]. *)
Definition answering_edge (status : Z) (body : string) : Platform :=
  example_platform None edge_parse (Return (example_response status body)).

(** The platform of the examples with the network down. *)
Definition offline : Platform :=
  example_platform None example_parse (Throw (Rejected "TypeError" "fetch failed")).

(** ** Vocabulary of the statements *)

(** The requests a computation handed to [fetch], in order. *)
Definition fetched {A} (m : Js A) : list (URL * RequestInit.t) :=
  omap (fun e => match e with Fetch u init => Some (u, init) | NewURL _ _ => None end)
       (events m).

(** The query entries whose value is not [undefined], in order. *)
Definition query_entries (q : QueryParams) : list (string * string) :=
  omap (fun kv => match kv.2 with Some v => Some (kv.1, v) | None => None end) q.

(** A form field's value as the JavaScript value it came from. *)
Definition field_value (v : FormDataEntryValue) : JsVal :=
  match v with
  | FieldText s => JStr s
  | FieldFile f => JFile f
  end.

(** The values a form field holds as they are: texts and files. *)
Definition is_field_value (v : JsVal) : bool :=
  match v with
  | JStr _ | JFile _ => true
  | _ => false
  end.

(** A flat value: not an array and not an object. *)
Definition is_flat (v : JsVal) : bool :=
  match v with
  | JArr _ | JObj _ => false
  | _ => true
  end.

(** A fold whose step may throw. *)
Fixpoint foldC {A S} (f : S -> A -> Completion S) (s : S) (xs : list A) : Completion S :=
  match xs with
  | [] => Return s
  | x :: rest =>
      match f s x with
      | Return s' => foldC f s' rest
      | Throw e => Throw e
      end
  end.

Section Vocabulary.
Context `{Platform}.
Import BaseApiService.

(** Every verb operation: the six static methods and the five closures of
    withCredentials(). *)
Inductive Operation :=
| Static (m : Method)
| Credentialed (m : CredentialedMethod).

Definition call (op : Operation) : RequestConfig.t -> Js JsVal :=
  match op with
  | Static m => invoke m
  | Credentialed m => withCredentials m
  end.

(** What the loop of [get] makes of the URL. *)
Definition append_query (q : option QueryParams) (u : URL) : URL :=
  match q with
  | Some q =>
      foldl (fun url key =>
               match lookup_property q key with
               | Some (Some value) => searchParams_append url key value
               | _ => url
               end) u (q.*1)
  | None => u
  end.

(** What the loop of [upload] makes of the data. *)
Definition build_form (data : JsVal) : Completion FormData :=
  match Object_keys data with
  | Return keys =>
      foldC (fun form key =>
               match Get data key with
               | Return value => FormData_append form key value
               | Throw e => Throw e
               end) [] keys
  | Throw e => Throw e
  end.

(** The request a method hands to [fetch] once the URL is parsed. *)
Definition request (m : Method) (rcfg : RequestConfig.t) (u : URL)
  : Completion (URL * RequestInit.t) :=
  let headers := getHeaders (RequestConfig.headers rcfg) in
  let json (method : string) :=
    match JSON_stringify (RequestConfig.data rcfg) with
    | Return body =>
        Return (u, {| RequestInit.method := method; RequestInit.headers := headers;
                      RequestInit.body := BodyText <$> body |})
    | Throw e => Throw e
    end in
  match m with
  | GET =>
      Return (append_query (RequestConfig.query rcfg) u,
              {| RequestInit.method := "GET"; RequestInit.headers := headers;
                 RequestInit.body := None |})
  | POST => json "POST"
  | PUT => json "PUT"
  | PATCH => json "PATCH"
  | DELETE =>
      Return (u, {| RequestInit.method := "DELETE"; RequestInit.headers := headers;
                    RequestInit.body := None |})
  | UPLOAD =>
      match build_form (RequestConfig.data rcfg) with
      | Return form =>
          Return (u, {| RequestInit.method := "POST"; RequestInit.headers := headers;
                        RequestInit.body := Some (BodyForm form) |})
      | Throw e => Throw e
      end
  end.

(** The form field a value becomes: a file stays a file, any other value
    gives its text. *)
Definition to_field (v : JsVal) : Completion FormDataEntryValue :=
  match v with
  | JFile f => Return (FieldFile f)
  | _ =>
      match ToString v with
      | Return s => Return (FieldText s)
      | Throw e => Throw e
      end
  end.

(** The request an operation hands to [fetch] once the URL is parsed: a
    closure of withCredentials() builds the request of the static method
    of its name, from the configuration with the merged headers. *)
Definition request_of (op : Operation) (rcfg : RequestConfig.t) (u : URL)
  : Completion (URL * RequestInit.t) :=
  match op with
  | Static m => request m rcfg u
  | Credentialed m =>
      request (method_of m)
        (RequestConfig.with_headers rcfg
           (spread (spread ∅ (RequestConfig.headers rcfg))
              (Some {[ "Content-Type" := "application/json"; "credentials" := "include" ]})))
        u
  end.

(** What a method makes of the network's answer to its request. *)
Definition respond (u : URL) (init : RequestInit.t) : Completion JsVal :=
  match network u init with
  | Return response => outcome (handleResponse response)
  | Throw e => Throw e
  end.

End Vocabulary.

(** ** Computations: basic facts *)

Section Computations.
Context `{Platform}.

Lemma bind_ret {A B} (a : A) (k : A -> Js B) : bind (ret a) k = k a.
Proof. unfold bind, ret. destruct (k a) as [t c]. reflexivity. Qed.

Lemma bind_lift_return {A B} (a : A) (k : A -> Js B) :
  bind (lift (Return a)) k = k a.
Proof. apply bind_ret. Qed.

Lemma bind_lift_throw {A B} (e : JsError) (k : A -> Js B) :
  bind (lift (Throw e)) k = throw e.
Proof. reflexivity. Qed.

Lemma forEach_ret {A S} (g : S -> A -> S) (f : S -> A -> Js S) (xs : list A) (s : S) :
  (forall s x, f s x = ret (g s x)) ->
  forEach xs f s = ret (foldl g s xs).
Proof.
  intros Hf. revert s.
  induction xs as [|x rest IH]; intros s; simpl; [reflexivity|].
  rewrite Hf, bind_ret. apply IH.
Qed.

Lemma forEach_lift {A S} (g : S -> A -> Completion S) (f : S -> A -> Js S)
    (xs : list A) (s : S) :
  (forall s x, f s x = lift (g s x)) ->
  forEach xs f s = lift (foldC g s xs).
Proof.
  intros Hf. revert s.
  induction xs as [|x rest IH]; intros s; simpl; [reflexivity|].
  rewrite Hf. destruct (g s x) as [s'|e].
  - rewrite bind_lift_return. apply IH.
  - reflexivity.
Qed.

End Computations.

(** ** The shape of every method *)

Section Shape.
Context `{Platform}.
Import BaseApiService.

Lemma handleResponse_events (response : Response.t) :
  events (handleResponse response) = [].
Proof.
  unfold handleResponse, Response_json.
  destruct (JSON_parse (Response.body response)) as [json|e]; [|reflexivity].
  rewrite bind_lift_return.
  destruct (negb (Response.ok response)); [|reflexivity].
  destruct (Get json "message") as [message|e]; [|reflexivity].
  rewrite bind_lift_return.
  destruct (Get json "errors") as [errors|e]; [|reflexivity].
  rewrite bind_lift_return.
  destruct (Error_new _ _) as [error|e]; reflexivity.
Qed.

Lemma fetch_handle (u : URL) (init : RequestInit.t) :
  bind (fetch u init) handleResponse = ([Fetch u init], respond u init).
Proof.
  unfold fetch, respond, bind.
  destruct (network u init) as [response|e]; [|reflexivity].
  pose proof (handleResponse_events response) as Hev.
  destruct (handleResponse response) as [t c]. simpl in *. subst t. reflexivity.
Qed.

(** Every method parses the URL first, builds its request, hands it to
    [fetch] and leaves the answer to [handleResponse]. *)
Lemma invoke_shape (m : Method) (rcfg : RequestConfig.t) :
  invoke m rcfg =
  let parsed := NewURL (RequestConfig.endpoint rcfg) API_URL in
  match URL_parse (RequestConfig.endpoint rcfg) API_URL with
  | Return u =>
      match request m rcfg u with
      | Return (u', init) => ([parsed; Fetch u' init], respond u' init)
      | Throw e => ([parsed], Throw e)
      end
  | Throw e => ([parsed], Throw e)
  end.
Proof.
  destruct m; simpl;
    unfold get, post, put, patch, delete, upload, new_URL, request, build_form;
    destruct (URL_parse (RequestConfig.endpoint rcfg) API_URL) as [u|e];
    try reflexivity; cbn [bind app].
  - (* get *)
    assert (Hloop : forall u0,
      match RequestConfig.query rcfg with
      | Some q =>
          forEach (q.*1)
            (fun url key =>
               match lookup_property q key with
               | Some (Some value) => ret (searchParams_append url key value)
               | _ => ret url
               end) u0
      | None => ret u0
      end = ret (append_query (RequestConfig.query rcfg) u0)).
    { intros u0. unfold append_query.
      destruct (RequestConfig.query rcfg) as [q|]; [|reflexivity].
      apply forEach_ret. intros s x.
      destruct (lookup_property q x) as [[v|]|]; reflexivity. }
    rewrite Hloop, bind_ret, fetch_handle. reflexivity.
  - (* post *)
    destruct (JSON_stringify (RequestConfig.data rcfg)) as [b|e]; [|reflexivity].
    rewrite bind_lift_return, fetch_handle. reflexivity.
  - (* put *)
    destruct (JSON_stringify (RequestConfig.data rcfg)) as [b|e]; [|reflexivity].
    rewrite bind_lift_return, fetch_handle. reflexivity.
  - (* patch *)
    destruct (JSON_stringify (RequestConfig.data rcfg)) as [b|e]; [|reflexivity].
    rewrite bind_lift_return, fetch_handle. reflexivity.
  - (* delete *)
    rewrite fetch_handle. reflexivity.
  - (* upload *)
    destruct (Object_keys (RequestConfig.data rcfg)) as [keys|e]; [|reflexivity].
    rewrite bind_lift_return.
    rewrite (forEach_lift
      (fun form key =>
         match Get (RequestConfig.data rcfg) key with
         | Return value => FormData_append form key value
         | Throw e => Throw e
         end)).
    2:{ intros s x. destruct (Get (RequestConfig.data rcfg) x) as [v|e]; [|reflexivity].
        rewrite bind_lift_return. reflexivity. }
    destruct (foldC _ _ keys) as [form|e]; [|reflexivity].
    rewrite bind_lift_return, fetch_handle. reflexivity.
Qed.

End Shape.

(** ** Objects as property lists *)

Section Objects.
Context {V : Type}.
Implicit Types (props : list (string * V)) (key : string).

Lemma lookup_property_None props key :
  key ∉ props.*1 -> lookup_property props key = None.
Proof.
  induction props as [|[k v] rest IH]; intros Hnot; simpl; [reflexivity|].
  rewrite fmap_cons in Hnot. apply not_elem_of_cons in Hnot as [Hne Hrest].
  simpl in Hne. destruct (decide (k = key)) as [->|_]; [contradiction|].
  apply IH, Hrest.
Qed.

(** In a well-formed object, reading a key gives the value listed with
    it. *)
Lemma lookup_property_elem props key (v : V) :
  NoDup (props.*1) -> (key, v) ∈ props -> lookup_property props key = Some v.
Proof.
  induction props as [|[k w] rest IH]; intros Hnd Hin.
  - inversion Hin.
  - rewrite fmap_cons in Hnd. apply NoDup_cons in Hnd as [Hfresh Hnd].
    simpl in *. apply elem_of_cons in Hin as [Heq|Hin].
    + inversion Heq; subst. destruct (decide (k = k)); [reflexivity|contradiction].
    + destruct (decide (k = key)) as [->|_]; [|apply IH; assumption].
      exfalso. apply Hfresh. apply list_elem_of_fmap. exists (key, v). split; [reflexivity|assumption].
Qed.

End Objects.

(** ** The loops of get and upload *)

Section Loops.
Context `{Platform}.
Import BaseApiService.

Lemma append_query_suffix (q l : QueryParams) (u : URL) :
  NoDup (q.*1) -> l ⊆ q ->
  foldl (fun url key =>
           match lookup_property q key with
           | Some (Some value) => searchParams_append url key value
           | _ => url
           end) u (l.*1)
  = {| origin := origin u; pathname := pathname u;
       searchParams := searchParams u ++ query_entries l; hash := hash u |}.
Proof.
  intros Hnd. revert u.
  induction l as [|[k v] rest IH]; intros u Hsub.
  - simpl. rewrite app_nil_r. destruct u; reflexivity.
  - rewrite fmap_cons. cbn [foldl fst].
    rewrite (lookup_property_elem q k v Hnd) by (apply Hsub; left).
    assert (Hrest : rest ⊆ q) by (intros x Hx; apply Hsub; right; exact Hx).
    destruct v as [value|]; rewrite IH by exact Hrest.
    + unfold query_entries. simpl. rewrite <- app_assoc. reflexivity.
    + reflexivity.
Qed.

(** The loop of [get] appends the entries with a value, in the order of
    the keys, and nothing else. *)
Lemma append_query_entries (q : QueryParams) (u : URL) :
  NoDup (q.*1) ->
  append_query (Some q) u
  = {| origin := origin u; pathname := pathname u;
       searchParams := searchParams u ++ query_entries q; hash := hash u |}.
Proof. intros Hnd. apply append_query_suffix; [exact Hnd|reflexivity]. Qed.

Lemma FormData_append_field (form : FormData) (name : string) (v : JsVal) :
  is_field_value v = true ->
  exists fld, FormData_append form name v = Return (form ++ [(name, fld)])
              /\ field_value fld = v.
Proof.
  destruct v; simpl; try discriminate; intros _.
  - exists (FieldText s). split; reflexivity.
  - exists (FieldFile f). split; reflexivity.
Qed.

Lemma build_form_suffix (props l : list (string * JsVal)) (form : FormData) :
  NoDup (props.*1) -> l ⊆ props ->
  Forall (fun kv => is_field_value kv.2 = true) l ->
  exists fields,
    foldC (fun form key =>
             match Get (JObj props) key with
             | Return value => FormData_append form key value
             | Throw e => Throw e
             end) form (l.*1) = Return (form ++ fields)
    /\ prod_map id field_value <$> fields = l.
Proof.
  intros Hnd. revert form.
  induction l as [|[k v] rest IH]; intros form Hsub Hflat.
  - exists []. simpl. rewrite app_nil_r. split; reflexivity.
  - apply Forall_cons in Hflat as [Hv Hflat]. simpl in Hv.
    assert (Hrest : rest ⊆ props) by (intros x Hx; apply Hsub; right; exact Hx).
    rewrite fmap_cons. cbn [foldC fst]. unfold Get at 1. cbn [OwnProperties].
    rewrite (lookup_property_elem props k v Hnd) by (apply Hsub; left).
    cbn [default]. change (id v) with v.
    destruct (FormData_append_field form k v Hv) as (fld & -> & Hfld).
    destruct (IH (form ++ [(k, fld)]) Hrest Hflat) as (fields & -> & Hfields).
    exists ((k, fld) :: fields). rewrite <- app_assoc. split; [reflexivity|].
    rewrite fmap_cons, Hfields. unfold prod_map. simpl. rewrite Hfld. reflexivity.
Qed.

(** The loop of [upload] makes one field per entry of a well-formed
    object of texts and files, with the entry's key and value. *)
Lemma build_form_entries (props : list (string * JsVal)) :
  NoDup (props.*1) ->
  Forall (fun kv => is_field_value kv.2 = true) props ->
  exists form,
    build_form (JObj props) = Return form
    /\ prod_map id field_value <$> form = props.
Proof.
  intros Hnd Hflat. unfold build_form. cbn [Object_keys OwnProperties].
  destruct (build_form_suffix props props [] Hnd) as (fields & Hfold & Hfields);
    [reflexivity|exact Hflat|].
  exists fields. split; [exact Hfold|exact Hfields].
Qed.

Lemma to_field_flat (v : JsVal) :
  is_flat v = true -> exists fld, to_field v = Return fld.
Proof.
  destruct v as [| |[|]| | | | |]; simpl; try discriminate; intros _; eexists; reflexivity.
Qed.

Lemma FormData_append_to_field (form : FormData) (name : string) (v : JsVal) :
  FormData_append form name v =
  match to_field v with
  | Return fld => Return (form ++ [(name, fld)])
  | Throw e => Throw e
  end.
Proof.
  unfold FormData_append, to_field.
  destruct v; try reflexivity; destruct (ToString _); reflexivity.
Qed.

Lemma build_form_flat_suffix (props l : list (string * JsVal)) (form : FormData) :
  NoDup (props.*1) -> l ⊆ props ->
  Forall (fun kv => is_flat kv.2 = true) l ->
  exists fields,
    foldC (fun form key =>
             match Get (JObj props) key with
             | Return value => FormData_append form key value
             | Throw e => Throw e
             end) form (l.*1) = Return (form ++ fields)
    /\ Forall2 (fun kv fld => fld.1 = kv.1 /\ to_field kv.2 = Return fld.2) l fields.
Proof.
  intros Hnd. revert form.
  induction l as [|[k v] rest IH]; intros form Hsub Hflat.
  - exists []. simpl. rewrite app_nil_r. split; [reflexivity|constructor].
  - apply Forall_cons in Hflat as [Hv Hflat]. simpl in Hv.
    assert (Hrest : rest ⊆ props) by (intros x Hx; apply Hsub; right; exact Hx).
    rewrite fmap_cons. cbn [foldC fst]. unfold Get at 1. cbn [OwnProperties].
    rewrite (lookup_property_elem props k v Hnd) by (apply Hsub; left).
    cbn [default]. change (id v) with v.
    destruct (to_field_flat v Hv) as [fld Hfld].
    rewrite FormData_append_to_field, Hfld.
    destruct (IH (form ++ [(k, fld)]) Hrest Hflat) as (fields & -> & Hfields).
    exists ((k, fld) :: fields). rewrite <- app_assoc. split; [reflexivity|].
    constructor; [split; [reflexivity|exact Hfld]|exact Hfields].
Qed.

(** For any flat mapping the loop of [upload] makes one field per entry,
    in order, named by the key and holding the value as a form field holds
    it: a number, a boolean, [null] or [undefined] as its text. *)
Lemma build_form_flat (props : list (string * JsVal)) :
  NoDup (props.*1) ->
  Forall (fun kv => is_flat kv.2 = true) props ->
  exists form,
    build_form (JObj props) = Return form
    /\ Forall2 (fun kv fld => fld.1 = kv.1 /\ to_field kv.2 = Return fld.2) props form.
Proof.
  intros Hnd Hflat. unfold build_form. cbn [Object_keys OwnProperties].
  destruct (build_form_flat_suffix props props [] Hnd) as (fields & Hfold & Hfields);
    [reflexivity|exact Hflat|].
  exists fields. split; [exact Hfold|exact Hfields].
Qed.

End Loops.

(** ** Requests and answers of every operation *)

Section Operations.
Context `{Platform}.
Import BaseApiService.

Lemma ok_range (r : Response.t) :
  Response.ok r = true <-> 200 <= Response.status r <= 299.
Proof. unfold Response.ok. rewrite andb_true_iff, !Z.leb_le. reflexivity. Qed.

(** A request that was fetched is the one [request] describes, it is the
    only one, and the operation ends as [respond] says. *)
Lemma invoke_fetched (m : Method) (rcfg : RequestConfig.t) (u : URL) (init : RequestInit.t) :
  (u, init) ∈ fetched (invoke m rcfg) ->
  exists u0,
    URL_parse (RequestConfig.endpoint rcfg) API_URL = Return u0
    /\ request m rcfg u0 = Return (u, init)
    /\ fetched (invoke m rcfg) = [(u, init)]
    /\ outcome (invoke m rcfg) = respond u init.
Proof.
  rewrite invoke_shape. cbv zeta.
  destruct (URL_parse (RequestConfig.endpoint rcfg) API_URL) as [u0|e];
    [|intros Hin; inversion Hin].
  destruct (request m rcfg u0) as [[u' init']|e] eqn:Hreq; [|intros Hin; inversion Hin].
  unfold fetched. simpl. intros Hin.
  apply list_elem_of_singleton in Hin. inversion Hin; subst.
  exists u0. repeat split; [exact Hreq|reflexivity..].
Qed.

Lemma invoke_issues (m : Method) (rcfg : RequestConfig.t) (u0 u : URL) (init : RequestInit.t) :
  URL_parse (RequestConfig.endpoint rcfg) API_URL = Return u0 ->
  request m rcfg u0 = Return (u, init) ->
  fetched (invoke m rcfg) = [(u, init)].
Proof. intros Hparse Hreq. rewrite invoke_shape. cbv zeta. rewrite Hparse, Hreq. reflexivity. Qed.

Lemma invoke_first_event (m : Method) (rcfg : RequestConfig.t) :
  head (events (invoke m rcfg)) = Some (NewURL (RequestConfig.endpoint rcfg) API_URL).
Proof.
  rewrite invoke_shape. cbv zeta.
  destruct (URL_parse (RequestConfig.endpoint rcfg) API_URL) as [u0|e]; [|reflexivity].
  destruct (request m rcfg u0) as [[u' init']|e]; reflexivity.
Qed.

(** Every operation is a static method at a configuration with the same
    endpoint. *)
Lemma call_invoke (op : Operation) (rcfg : RequestConfig.t) :
  exists m rcfg',
    call op rcfg = invoke m rcfg'
    /\ RequestConfig.endpoint rcfg' = RequestConfig.endpoint rcfg.
Proof.
  destruct op as [m|m].
  - exists m, rcfg. split; reflexivity.
  - eexists (method_of m), _. split; reflexivity.
Qed.

Lemma call_outcome (op : Operation) (rcfg : RequestConfig.t) (u : URL) (init : RequestInit.t) :
  (u, init) ∈ fetched (call op rcfg) ->
  outcome (call op rcfg) = respond u init.
Proof.
  destruct (call_invoke op rcfg) as (m & rcfg' & -> & _). intros Hin.
  destruct (invoke_fetched m rcfg' u init Hin) as (u0 & _ & _ & _ & Hout). exact Hout.
Qed.

Lemma request_headers (m : Method) (rcfg : RequestConfig.t) (u0 u : URL) (init : RequestInit.t) :
  request m rcfg u0 = Return (u, init) ->
  RequestInit.headers init = getHeaders (RequestConfig.headers rcfg).
Proof.
  unfold request. destruct m;
    repeat match goal with
           | |- context [match ?c with Return _ => _ | Throw _ => _ end] => destruct c
           end;
    intros Heq; inversion Heq; reflexivity.
Qed.

Lemma request_url (m : Method) (rcfg : RequestConfig.t) (u0 u : URL) (init : RequestInit.t) :
  m <> GET ->
  request m rcfg u0 = Return (u, init) ->
  u = u0.
Proof.
  unfold request. destruct m; [contradiction|..]; intros _;
    repeat match goal with
           | |- context [match ?c with Return _ => _ | Throw _ => _ end] => destruct c
           end;
    intros Heq; inversion Heq; reflexivity.
Qed.

(** *** handleResponse *)

Lemma respond_success (u : URL) (init : RequestInit.t) (r : Response.t) (json : JsVal) :
  network u init = Return r ->
  Response.ok r = true ->
  JSON_parse (Response.body r) = Return json ->
  respond u init = Return json.
Proof.
  intros Hnet Hok Hparse. unfold respond, handleResponse, Response_json.
  rewrite Hnet, Hparse, bind_lift_return, Hok. reflexivity.
Qed.

Lemma respond_malformed (u : URL) (init : RequestInit.t) (r : Response.t) (e : JsError) :
  network u init = Return r ->
  JSON_parse (Response.body r) = Throw e ->
  respond u init = Throw e.
Proof.
  intros Hnet Hparse. unfold respond, handleResponse, Response_json.
  rewrite Hnet, Hparse. reflexivity.
Qed.

(** A failed response: the error is built from the body's [message] and
    [errors]; reading them from [null] throws, and so does a message that
    has no text. *)
Lemma respond_failure (u : URL) (init : RequestInit.t) (r : Response.t) (json : JsVal) :
  network u init = Return r ->
  Response.ok r = false ->
  JSON_parse (Response.body r) = Return json ->
  respond u init =
  match Get json "message", Get json "errors" with
  | Return message, Return errors =>
      match Error_new message
              {| Cause.status := Response.status r;
                 Cause.statusText := Response.statusText r;
                 Cause.url := Response.url r;
                 Cause.errors := errors |} with
      | Return error => Throw error
      | Throw e => Throw e
      end
  | Throw e, _ => Throw e
  | _, Throw e => Throw e
  end.
Proof.
  intros Hnet Hok Hparse. unfold respond, handleResponse, Response_json.
  rewrite Hnet, Hparse, bind_lift_return, Hok. cbn [negb].
  destruct (Get json "message") as [message|e]; [|reflexivity].
  rewrite bind_lift_return.
  destruct (Get json "errors") as [errors|e]; [|reflexivity].
  rewrite bind_lift_return.
  destruct (Error_new _ _) as [error|e]; reflexivity.
Qed.

Lemma Get_defined (json : JsVal) (key key' : string) (v : JsVal) :
  Get json key = Return v -> exists v', Get json key' = Return v'.
Proof.
  unfold Get. destruct (OwnProperties json) as [props|e]; [|discriminate].
  intros _. eexists. reflexivity.
Qed.

(** An operation whose URL parses and whose request can be built issues
    that request, and only it, and ends as [respond] says. *)
Lemma call_issues (op : Operation) (rcfg : RequestConfig.t) (u0 u : URL) (init : RequestInit.t) :
  URL_parse (RequestConfig.endpoint rcfg) API_URL = Return u0 ->
  request_of op rcfg u0 = Return (u, init) ->
  fetched (call op rcfg) = [(u, init)] /\ outcome (call op rcfg) = respond u init.
Proof.
  intros Hparse Hreq.
  destruct op as [m|m]; cbn [call request_of] in *.
  - rewrite invoke_shape. cbv zeta. rewrite Hparse, Hreq. split; reflexivity.
  - unfold withCredentials. rewrite invoke_shape. cbv zeta.
    change (RequestConfig.endpoint (RequestConfig.with_headers rcfg _))
      with (RequestConfig.endpoint rcfg).
    rewrite Hparse, Hreq. split; reflexivity.
Qed.

(** The request of a method depends on the headers of the configuration
    through its own headers only. *)
Lemma request_with_headers (m : Method) (rcfg : RequestConfig.t)
    (h : gmap string string) (u0 : URL) :
  request m (RequestConfig.with_headers rcfg h) u0 =
  match request m rcfg u0 with
  | Return (u, init) =>
      Return (u, {| RequestInit.method := RequestInit.method init;
                    RequestInit.headers := getHeaders (Some h);
                    RequestInit.body := RequestInit.body init |})
  | Throw e => Throw e
  end.
Proof.
  unfold request. destruct m; cbn [RequestConfig.with_headers RequestConfig.headers
    RequestConfig.data RequestConfig.query RequestConfig.endpoint];
    repeat match goal with
           | |- context [match ?c with Return _ => _ | Throw _ => _ end] =>
               match c with
               | JSON_stringify _ => destruct c
               | build_form _ => destruct c
               end
           end; reflexivity.
Qed.

(** A closure of withCredentials() issues the request of the static
    method, with the merged headers. *)
Lemma withCredentials_issues (m : CredentialedMethod) (rcfg : RequestConfig.t)
    (u0 u : URL) (init0 : RequestInit.t) :
  URL_parse (RequestConfig.endpoint rcfg) API_URL = Return u0 ->
  request (method_of m) rcfg u0 = Return (u, init0) ->
  fetched (withCredentials m rcfg) =
  [(u, {| RequestInit.method := RequestInit.method init0;
          RequestInit.headers :=
            getHeaders
              (Some (spread (spread ∅ (RequestConfig.headers rcfg))
                       (Some {[ "Content-Type" := "application/json";
                                "credentials" := "include" ]})));
          RequestInit.body := RequestInit.body init0 |})].
Proof.
  intros Hparse Hreq. unfold withCredentials.
  apply (invoke_issues _ _ u0); [exact Hparse|].
  rewrite request_with_headers, Hreq. reflexivity.
Qed.

Lemma not_in_range_not_ok (r : Response.t) :
  ~ (200 <= Response.status r <= 299) -> Response.ok r = false.
Proof.
  intros Hstatus. destruct (Response.ok r) eqn:Hok; [|reflexivity].
  exfalso. apply Hstatus, ok_range, Hok.
Qed.

End Operations.

(** ** Headers *)

Section Headers.
Context `{Platform}.
Import BaseApiService.

Lemma getHeaders_lookup (custom : gmap string string) (key : string) :
  getHeaders (Some custom) !! key =
  match custom !! key with
  | Some v => Some v
  | None => ({[ "Content-Type" := "application/json" ]} : gmap string string) !! key
  end.
Proof.
  unfold getHeaders, spread.
  destruct (custom !! key) as [v|] eqn:Hc.
  - apply lookup_union_Some_l, Hc.
  - apply lookup_union_r, Hc.
Qed.

Lemma getHeaders_undefined :
  getHeaders None = {[ "Content-Type" := "application/json" ]}.
Proof. reflexivity. Qed.

(** C5: for every custom headers map, getHeaders(custom) holds
    Content-Type: application/json unless custom has a Content-Type of its
    own, whose value is then used, and it holds every entry of custom: the
    caller's entries win over the default. *)
Theorem getHeaders_merge (custom : gmap string string) :
  (custom !! "Content-Type" = None ->
   getHeaders (Some custom) !! "Content-Type" = Some "application/json")
  /\ (forall key value,
        custom !! key = Some value -> getHeaders (Some custom) !! key = Some value).
Proof.
  split.
  - intros Hnone. rewrite getHeaders_lookup, Hnone. reflexivity.
  - intros key value Hsome. rewrite getHeaders_lookup, Hsome. reflexivity.
Qed.

(** What the merged headers of withCredentials() hold: the fixed pair
    first, then whatever else the caller gave. *)
Lemma credentialed_headers_lookup (caller : option (gmap string string)) (key : string) :
  getHeaders
    (Some (spread (spread ∅ caller)
             (Some {[ "Content-Type" := "application/json"; "credentials" := "include" ]})))
    !! key =
  match ({[ "Content-Type" := "application/json"; "credentials" := "include" ]}
           : gmap string string) !! key with
  | Some v => Some v
  | None => default ∅ caller !! key
  end.
Proof.
  rewrite getHeaders_lookup. unfold spread at 1.
  destruct (({[ "Content-Type" := "application/json"; "credentials" := "include" ]}
               : gmap string string) !! key) as [v|] eqn:Hfixed.
  - rewrite (lookup_union_Some_l _ _ _ _ Hfixed). reflexivity.
  - rewrite (lookup_union_r _ _ _ Hfixed).
    assert (Hcaller : spread ∅ caller = default ∅ caller).
    { unfold spread. destruct caller as [h|]; simpl; [|reflexivity].
      apply (right_id_L ∅ (∪)). }
    rewrite Hcaller.
    destruct (default ∅ caller !! key) as [v|] eqn:Hkey; [reflexivity|].
    apply lookup_insert_None in Hfixed as [_ Hne].
    apply lookup_singleton_ne. exact Hne.
Qed.


(** C10: an upload whose caller-supplied headers do not set Content-Type
    is sent with Content-Type: application/json, the default of
    getHeaders, and a multipart form as body.  The request is sent
    whenever the URL parses and the form can be built. *)
Theorem upload_default_content_type (rcfg : RequestConfig.t) (u : URL) :
  URL_parse (RequestConfig.endpoint rcfg) API_URL = Return u ->
  (exists req, request UPLOAD rcfg u = Return req) ->
  default ∅ (RequestConfig.headers rcfg) !! "Content-Type" = None ->
  exists init form,
    fetched (upload rcfg) = [(u, init)]
    /\ RequestInit.headers init !! "Content-Type" = Some "application/json"
    /\ RequestInit.body init = Some (BodyForm form).
Proof.
  intros Hparse [[u' init] Hreq] Hnone.
  pose proof (invoke_issues UPLOAD rcfg u u' init Hparse Hreq) as Hfetched.
  pose proof (request_headers UPLOAD rcfg u u' init Hreq) as Hheaders.
  unfold request in Hreq.
  destruct (build_form (RequestConfig.data rcfg)) as [form|e]; [|discriminate].
  inversion Hreq; subst. eexists _, form.
  split; [exact Hfetched|]. split; [|reflexivity].
  cbn [RequestInit.headers].
  destruct (RequestConfig.headers rcfg) as [custom|]; simpl in Hnone.
  - rewrite getHeaders_lookup, Hnone. reflexivity.
  - reflexivity.
Qed.

End Headers.

Lemma getHeaders_merge_witness :
  BaseApiService.getHeaders (Some {[ "Content-Type" := "text/plain"; "X-Trace" := "1" ]})
    !! "Content-Type" = Some "text/plain"
  /\ BaseApiService.getHeaders (Some {[ "X-Trace" := "1" ]})
       !! "Content-Type" = Some "application/json".
Proof.
  split.
  - apply (proj2 (getHeaders_merge {[ "Content-Type" := "text/plain"; "X-Trace" := "1" ]})).
    reflexivity.
  - apply (proj1 (getHeaders_merge {[ "X-Trace" := "1" ]})).
    reflexivity.
Defined.

(** ** Responses *)

Section Responses.
Context `{Platform}.
Import BaseApiService.

(** C3: for every response with a status in 200-299 whose body parses as
    JSON, every verb operation returns the parsed body as it is.  The
    response is the network's answer to the request of the operation, which
    is issued whenever the URL parses and the request can be built. *)
Theorem successful_response_returned (op : Operation) (rcfg : RequestConfig.t)
    (u0 u : URL) (init : RequestInit.t) (r : Response.t) (json : JsVal) :
  URL_parse (RequestConfig.endpoint rcfg) API_URL = Return u0 ->
  request_of op rcfg u0 = Return (u, init) ->
  network u init = Return r ->
  200 <= Response.status r <= 299 ->
  JSON_parse (Response.body r) = Return json ->
  fetched (call op rcfg) = [(u, init)]
  /\ outcome (call op rcfg) = Return json.
Proof.
  intros Hparse Hreq Hnet Hstatus Hjson.
  destruct (call_issues op rcfg u0 u init Hparse Hreq) as [Hfetched ->].
  split; [exact Hfetched|].
  apply (respond_success u init r json Hnet); [|exact Hjson].
  apply ok_range, Hstatus.
Qed.

(** C8: for every response whose body is not valid JSON, whatever its
    status, every verb operation fails with the failure of the parser
    itself, nothing attached and nothing put in its place. *)
Theorem malformed_body_propagates (op : Operation) (rcfg : RequestConfig.t)
    (u0 u : URL) (init : RequestInit.t) (r : Response.t) (e : JsError) :
  URL_parse (RequestConfig.endpoint rcfg) API_URL = Return u0 ->
  request_of op rcfg u0 = Return (u, init) ->
  network u init = Return r ->
  JSON_parse (Response.body r) = Throw e ->
  fetched (call op rcfg) = [(u, init)]
  /\ outcome (call op rcfg) = Throw e.
Proof.
  intros Hparse Hreq Hnet Hjson.
  destruct (call_issues op rcfg u0 u init Hparse Hreq) as [Hfetched ->].
  split; [exact Hfetched|].
  exact (respond_malformed u init r e Hnet Hjson).
Qed.

(** C2, amended: for every response with a status outside 200-299 whose
    body parses as a JSON value with a text [message], every verb
    operation throws an Error whose message is that text and whose cause
    is {status, statusText, url, errors}: the first three from the
    response, errors the body's [errors] as it is, [undefined] when the
    body has none. *)
Theorem failed_response_raises (op : Operation) (rcfg : RequestConfig.t)
    (u0 u : URL) (init : RequestInit.t) (r : Response.t) (json : JsVal) (message : string) :
  URL_parse (RequestConfig.endpoint rcfg) API_URL = Return u0 ->
  request_of op rcfg u0 = Return (u, init) ->
  network u init = Return r ->
  ~ (200 <= Response.status r <= 299) ->
  JSON_parse (Response.body r) = Return json ->
  Get json "message" = Return (JStr message) ->
  exists errors,
    Get json "errors" = Return errors
    /\ fetched (call op rcfg) = [(u, init)]
    /\ outcome (call op rcfg) =
       Throw (Error message
                {| Cause.status := Response.status r;
                   Cause.statusText := Response.statusText r;
                   Cause.url := Response.url r;
                   Cause.errors := errors |}).
Proof.
  intros Hparse Hreq Hnet Hstatus Hjson Hmessage.
  pose proof (not_in_range_not_ok r Hstatus) as Hok.
  destruct (Get_defined json "message" "errors" _ Hmessage) as [errors Herrors].
  exists errors. split; [exact Herrors|].
  destruct (call_issues op rcfg u0 u init Hparse Hreq) as [Hfetched ->].
  split; [exact Hfetched|].
  rewrite (respond_failure u init r json Hnet Hok Hjson), Hmessage, Herrors.
  reflexivity.
Qed.

(** X2: for a failing response whose body has no [message], every verb
    operation throws an Error with the empty text. *)
Theorem failed_response_without_message (op : Operation) (rcfg : RequestConfig.t)
    (u0 u : URL) (init : RequestInit.t) (r : Response.t) (json : JsVal) :
  URL_parse (RequestConfig.endpoint rcfg) API_URL = Return u0 ->
  request_of op rcfg u0 = Return (u, init) ->
  network u init = Return r ->
  ~ (200 <= Response.status r <= 299) ->
  JSON_parse (Response.body r) = Return json ->
  Get json "message" = Return JUndefined ->
  fetched (call op rcfg) = [(u, init)]
  /\ exists cause, outcome (call op rcfg) = Throw (Error "" cause).
Proof.
  intros Hparse Hreq Hnet Hstatus Hjson Hmessage.
  pose proof (not_in_range_not_ok r Hstatus) as Hok.
  destruct (Get_defined json "message" "errors" _ Hmessage) as [errors Herrors].
  destruct (call_issues op rcfg u0 u init Hparse Hreq) as [Hfetched ->].
  split; [exact Hfetched|].
  rewrite (respond_failure u init r json Hnet Hok Hjson), Hmessage, Herrors.
  eexists. reflexivity.
Qed.

(** X3: for a failing response whose body is [null], every verb operation
    throws a TypeError: reading [message] from [null] throws. *)
Theorem null_body_type_error (op : Operation) (rcfg : RequestConfig.t)
    (u0 u : URL) (init : RequestInit.t) (r : Response.t) :
  URL_parse (RequestConfig.endpoint rcfg) API_URL = Return u0 ->
  request_of op rcfg u0 = Return (u, init) ->
  network u init = Return r ->
  ~ (200 <= Response.status r <= 299) ->
  JSON_parse (Response.body r) = Return JNull ->
  fetched (call op rcfg) = [(u, init)]
  /\ outcome (call op rcfg) = Throw TypeError.
Proof.
  intros Hparse Hreq Hnet Hstatus Hjson.
  pose proof (not_in_range_not_ok r Hstatus) as Hok.
  destruct (call_issues op rcfg u0 u init Hparse Hreq) as [Hfetched ->].
  split; [exact Hfetched|].
  rewrite (respond_failure u init r JNull Hnet Hok Hjson). reflexivity.
Qed.

End Responses.

Lemma successful_response_returned_witness :
  let rcfg := example_config None None (JObj [("name", JStr "Ada")]) in
  let init :=
    {| RequestInit.method := "POST";
       RequestInit.headers := BaseApiService.getHeaders None;
       RequestInit.body := Some (BodyText "data") |} in
  fetched (@call (answering 200 "users") (Static BaseApiService.POST) rcfg)
  = [(users_url [], init)]
  /\ outcome (@call (answering 200 "users") (Static BaseApiService.POST) rcfg)
     = Return (JObj [("message", JStr "ok"); ("data", JArr [JStr "Ada"])]).
Proof.
  intros rcfg init.
  apply (@successful_response_returned (answering 200 "users") (Static BaseApiService.POST)
           rcfg (users_url []) (users_url []) init (example_response 200 "users")).
  - reflexivity.
  - reflexivity.
  - reflexivity.
  - simpl. lia.
  - reflexivity.
Defined.

Lemma malformed_body_propagates_witness :
  let rcfg := example_config None None JUndefined in
  let init :=
    {| RequestInit.method := "DELETE";
       RequestInit.headers := BaseApiService.getHeaders None;
       RequestInit.body := None |} in
  fetched (@call (answering 500 "") (Static BaseApiService.DELETE) rcfg)
  = [(users_url [], init)]
  /\ outcome (@call (answering 500 "") (Static BaseApiService.DELETE) rcfg)
     = Throw (Rejected "SyntaxError" "Unexpected end of JSON input").
Proof.
  intros rcfg init.
  apply (@malformed_body_propagates (answering 500 "") (Static BaseApiService.DELETE)
           rcfg (users_url []) (users_url []) init (example_response 500 "")).
  - reflexivity.
  - reflexivity.
  - reflexivity.
  - reflexivity.
Defined.

Lemma failed_response_raises_witness :
  let rcfg := example_config None None (JObj [("name", JStr "Ada")]) in
  let init :=
    {| RequestInit.method := "POST";
       RequestInit.headers := BaseApiService.getHeaders None;
       RequestInit.body := Some (BodyText "data") |} in
  exists errors,
    @Get (answering 400 "invalid")
      (JObj [("message", JStr "invalid name");
             ("errors", JObj [("name", JStr "required")])]) "errors" = Return errors
    /\ fetched (@call (answering 400 "invalid") (Static BaseApiService.POST) rcfg)
       = [(users_url [], init)]
    /\ outcome (@call (answering 400 "invalid") (Static BaseApiService.POST) rcfg)
       = Throw (Error "invalid name"
                  {| Cause.status := 400; Cause.statusText := "";
                     Cause.url := "http://localhost:3001/users";
                     Cause.errors := errors |}).
Proof.
  intros rcfg init.
  apply (@failed_response_raises (answering 400 "invalid") (Static BaseApiService.POST)
           rcfg (users_url []) (users_url []) init (example_response 400 "invalid")).
  - reflexivity.
  - reflexivity.
  - reflexivity.
  - simpl. lia.
  - reflexivity.
  - reflexivity.
Defined.

(** C2 as stated fails: a 500 response whose body is the JSON text [null]
    parses, and the operation then throws a TypeError, not an Error with a
    message and a cause. *)
Lemma null_body_is_not_request_failed :
  ~ (forall (P : Platform) (op : Operation) (rcfg : RequestConfig.t)
       (u : URL) (init : RequestInit.t) (r : Response.t) (json : JsVal),
        (u, init) ∈ fetched (call op rcfg) ->
        network u init = Return r ->
        ~ (200 <= Response.status r <= 299) ->
        JSON_parse (Response.body r) = Return json ->
        exists message errors,
          outcome (call op rcfg) =
          Throw (Error message
                   {| Cause.status := Response.status r;
                      Cause.statusText := Response.statusText r;
                      Cause.url := Response.url r;
                      Cause.errors := errors |})).
Proof.
  intros Hclaim.
  destruct (Hclaim (answering 500 "null") (Static BaseApiService.DELETE)
              (example_config None None JUndefined)
              (users_url [])
              {| RequestInit.method := "DELETE";
                 RequestInit.headers := BaseApiService.getHeaders None;
                 RequestInit.body := None |}
              (example_response 500 "null") JNull) as (message & errors & Hout).
  - vm_compute. left.
  - reflexivity.
  - simpl. lia.
  - reflexivity.
  - vm_compute in Hout. discriminate Hout.
Qed.


Lemma upload_default_content_type_witness :
  let rcfg :=
    example_config None (Some {[ "X-Trace" := "1" ]}) (JObj [("title", JStr "logo")]) in
  exists init form,
    fetched (@BaseApiService.upload (answering 200 "users") rcfg) = [(users_url [], init)]
    /\ RequestInit.headers init !! "Content-Type" = Some "application/json"
    /\ RequestInit.body init = Some (BodyForm form).
Proof.
  intros rcfg.
  apply (@upload_default_content_type (answering 200 "users") rcfg (users_url [])).
  - reflexivity.
  - eexists. reflexivity.
  - reflexivity.
Defined.

(** ** URLs and bodies *)

Section Requests.
Context `{Platform}.
Import BaseApiService.

(** X1, the part of C1 that holds: get issues the parsed URL followed by the
    query entries whose value is not [undefined], in the order of the
    keys. *)
Lemma get_request_url (rcfg : RequestConfig.t) (q : QueryParams) (u : URL) :
  RequestConfig.query rcfg = Some q ->
  NoDup (q.*1) ->
  URL_parse (RequestConfig.endpoint rcfg) API_URL = Return u ->
  fetched (get rcfg) =
  [({| origin := origin u; pathname := pathname u;
       searchParams := searchParams u ++ query_entries q; hash := hash u |},
    {| RequestInit.method := "GET";
       RequestInit.headers := getHeaders (RequestConfig.headers rcfg);
       RequestInit.body := None |})].
Proof.
  intros Hq Hnd Hparse.
  apply (invoke_issues GET rcfg u); [exact Hparse|].
  unfold request. rewrite Hq, (append_query_entries q u Hnd). reflexivity.
Qed.

(** The other methods never read [query]: the URL they fetch is the parsed
    one. *)
Lemma query_ignored_outside_get (m : Method) (rcfg : RequestConfig.t)
    (u : URL) (init : RequestInit.t) :
  m <> GET ->
  (u, init) ∈ fetched (invoke m rcfg) ->
  URL_parse (RequestConfig.endpoint rcfg) API_URL = Return u.
Proof.
  intros Hm Hin.
  apply invoke_fetched in Hin as (u0 & Hparse & Hreq & _ & _).
  apply (request_url m rcfg u0 u init Hm) in Hreq. subst u0. exact Hparse.
Qed.

(** C7: post, put and patch send config.data serialized to JSON text as
    the body; get and delete send no body. *)
Theorem body_sent (rcfg : RequestConfig.t) (u : URL) :
  URL_parse (RequestConfig.endpoint rcfg) API_URL = Return u ->
  (forall text f,
     JSON_stringify (RequestConfig.data rcfg) = Return (Some text) ->
     f ∈ [post; put; patch] ->
     exists init,
       fetched (f rcfg) = [(u, init)]
       /\ RequestInit.body init = Some (BodyText text))
  /\ (forall f,
        f ∈ [get; delete] ->
        exists u' init,
          fetched (f rcfg) = [(u', init)]
          /\ RequestInit.body init = None).
Proof.
  intros Hparse. split.
  - intros text f Htext Hf.
    assert (Hm : exists m method,
      f = invoke m
      /\ request m rcfg u =
         Return (u, {| RequestInit.method := method;
                       RequestInit.headers := getHeaders (RequestConfig.headers rcfg);
                       RequestInit.body := Some (BodyText text) |})).
    { repeat (apply elem_of_cons in Hf as [->|Hf]); [| | |inversion Hf].
      - exists POST, "POST". split; [reflexivity|]. unfold request. rewrite Htext. reflexivity.
      - exists PUT, "PUT". split; [reflexivity|]. unfold request. rewrite Htext. reflexivity.
      - exists PATCH, "PATCH". split; [reflexivity|]. unfold request. rewrite Htext. reflexivity. }
    destruct Hm as (m & method & -> & Hreq).
    eexists. split; [exact (invoke_issues m rcfg u _ _ Hparse Hreq)|reflexivity].
  - intros f Hf.
    repeat (apply elem_of_cons in Hf as [->|Hf]); [| |inversion Hf].
    + eexists _, _. split; [apply (invoke_issues GET rcfg u _ _ Hparse); reflexivity|reflexivity].
    + eexists _, _. split; [apply (invoke_issues DELETE rcfg u _ _ Hparse); reflexivity|reflexivity].
Qed.

(** A text or a file is held by its field as it is. *)
Lemma to_field_field_value (v : JsVal) (fld : FormDataEntryValue) :
  to_field v = Return fld -> is_field_value v = true -> field_value fld = v.
Proof.
  destruct v; simpl; try discriminate; intros Heq _; inversion Heq; reflexivity.
Qed.

(** C6, amended: for every flat mapping given to upload as config.data,
    an object with no key twice whose values are neither arrays nor
    objects, the body of the request is a multipart form with exactly one
    field per entry, in order, named by the entry's key; the field holds
    the entry's value when that is a text or a file, and the text of the
    value otherwise (a number, a boolean, [null], [undefined]). *)
Theorem upload_form_fields (rcfg : RequestConfig.t) (props : list (string * JsVal)) (u : URL) :
  RequestConfig.data rcfg = JObj props ->
  NoDup (props.*1) ->
  Forall (fun kv => is_flat kv.2 = true) props ->
  URL_parse (RequestConfig.endpoint rcfg) API_URL = Return u ->
  exists form,
    fetched (upload rcfg) =
    [(u, {| RequestInit.method := "POST";
            RequestInit.headers := getHeaders (RequestConfig.headers rcfg);
            RequestInit.body := Some (BodyForm form) |})]
    /\ Forall2 (fun kv fld =>
                  fld.1 = kv.1
                  /\ to_field kv.2 = Return fld.2
                  /\ (is_field_value kv.2 = true -> field_value fld.2 = kv.2))
               props form.
Proof.
  intros Hdata Hnd Hflat Hparse.
  destruct (build_form_flat props Hnd Hflat) as (form & Hform & Hfields).
  exists form. split.
  - apply (invoke_issues UPLOAD rcfg u); [exact Hparse|].
    unfold request. rewrite Hdata, Hform. reflexivity.
  - eapply Forall2_impl; [exact Hfields|].
    intros kv fld [Hkey Hvalue]. split; [exact Hkey|]. split; [exact Hvalue|].
    apply to_field_field_value, Hvalue.
Qed.

(** C9, amended: every verb operation resolves the endpoint against the
    value of the environment variable when it is set and not empty, and
    against http://localhost:3001 when it is unset or empty. *)
Theorem base_origin (op : Operation) (rcfg : RequestConfig.t) :
  head (events (call op rcfg)) = Some (NewURL (RequestConfig.endpoint rcfg) API_URL)
  /\ (forall value,
        process_env_API_URL = Some value -> value <> "" -> API_URL = value)
  /\ (process_env_API_URL = None \/ process_env_API_URL = Some "" ->
      API_URL = "http://localhost:3001").
Proof.
  split; [|split].
  - destruct (call_invoke op rcfg) as (m & rcfg' & -> & <-). apply invoke_first_event.
  - intros value Henv Hne. unfold API_URL, or_else. rewrite Henv.
    destruct (decide (value = "")); [contradiction|reflexivity].
  - intros [Henv|Henv]; unfold API_URL; rewrite Henv; reflexivity.
Qed.

End Requests.

Lemma body_sent_witness :
  let rcfg := example_config None None (JObj [("name", JStr "Ada")]) in
  (forall text f,
     @JSON_stringify (answering 200 "users") (RequestConfig.data rcfg) = Return (Some text) ->
     f ∈ [@BaseApiService.post (answering 200 "users"); @BaseApiService.put (answering 200 "users");
          @BaseApiService.patch (answering 200 "users")] ->
     exists init,
       fetched (f rcfg) = [(users_url [], init)]
       /\ RequestInit.body init = Some (BodyText text))
  /\ (forall f,
        f ∈ [@BaseApiService.get (answering 200 "users");
             @BaseApiService.delete (answering 200 "users")] ->
        exists u' init,
          fetched (f rcfg) = [(u', init)]
          /\ RequestInit.body init = None).
Proof.
  intros rcfg.
  apply (@body_sent (answering 200 "users") rcfg (users_url [])).
  reflexivity.
Defined.

Lemma upload_form_fields_witness :
  let logo := {| file_name := "logo.png"; file_type := "image/png"; file_content := "PNG" |} in
  let props := [("title", JStr "logo"); ("file", JFile logo); ("public", JBool true)] in
  let rcfg := example_config None None (JObj props) in
  exists form,
    fetched (@BaseApiService.upload (answering 200 "users") rcfg) =
    [(users_url [],
      {| RequestInit.method := "POST";
         RequestInit.headers := BaseApiService.getHeaders None;
         RequestInit.body := Some (BodyForm form) |})]
    /\ Forall2 (fun kv fld =>
                  fld.1 = kv.1
                  /\ @to_field (answering 200 "users") kv.2 = Return fld.2
                  /\ (is_field_value kv.2 = true -> field_value fld.2 = kv.2))
               props form.
Proof.
  intros logo props rcfg.
  apply (@upload_form_fields (answering 200 "users") rcfg props (users_url [])).
  - reflexivity.
  - apply (bool_decide_unpack _). vm_compute. reflexivity.
  - repeat constructor.
  - reflexivity.
Defined.

(** C6 as stated fails: the entry count: 5 of a flat mapping is sent as a
    field holding a text, not the number. *)
Lemma upload_number_sent_as_text :
  ~ (forall (P : Platform) (rcfg : RequestConfig.t) (props : list (string * JsVal)) (u : URL),
       RequestConfig.data rcfg = JObj props ->
       NoDup (props.*1) ->
       Forall (fun kv => is_flat kv.2 = true) props ->
       URL_parse (RequestConfig.endpoint rcfg) BaseApiService.API_URL = Return u ->
       exists form,
         fetched (BaseApiService.upload rcfg) =
         [(u, {| RequestInit.method := "POST";
                 RequestInit.headers :=
                   BaseApiService.getHeaders (RequestConfig.headers rcfg);
                 RequestInit.body := Some (BodyForm form) |})]
         /\ prod_map id field_value <$> form = props).
Proof.
  intros Hclaim.
  destruct (Hclaim (answering 200 "users")
              (example_config None None (JObj [("count", JNum 5%float)]))
              [("count", JNum 5%float)] (users_url [])) as (form & Hfetched & Hvalues).
  - reflexivity.
  - apply (bool_decide_unpack _). vm_compute. reflexivity.
  - repeat constructor.
  - reflexivity.
  - vm_compute in Hfetched. inversion Hfetched; subst.
    vm_compute in Hvalues. discriminate Hvalues.
Qed.

Lemma base_origin_witness :
  @BaseApiService.API_URL
    (example_platform (Some "https://api.example.com") example_parse
       (Return (example_response 200 "users")))
  = "https://api.example.com".
Proof.
  apply (proj1 (proj2 (@base_origin
           (example_platform (Some "https://api.example.com") example_parse
              (Return (example_response 200 "users")))
           (Static BaseApiService.GET) (example_config None None JUndefined)))).
  - reflexivity.
  - discriminate.
Defined.

(** C1 at the failing input: the same configuration, with query
    {page: "2"}, gives the URL /users?page=2 through get and the URL
    /users, without the parameter, through delete, post and upload. *)
Theorem query_appended_by_get_only :
  let rcfg :=
    example_config (Some [("page", Some "2")]) None (JObj [("name", JStr "Ada")]) in
  (fetched (@BaseApiService.get (answering 200 "users") rcfg)).*1
  = [users_url [("page", "2")]]
  /\ (fetched (@BaseApiService.delete (answering 200 "users") rcfg)).*1 = [users_url []]
  /\ (fetched (@BaseApiService.post (answering 200 "users") rcfg)).*1 = [users_url []]
  /\ (fetched (@BaseApiService.upload (answering 200 "users") rcfg)).*1 = [users_url []].
Proof. vm_compute. repeat split; reflexivity. Qed.

(** C9 as stated fails: with the variable set to the empty text, the
    endpoint is resolved against the default address. *)
Lemma empty_variable_falls_back :
  ~ (forall (P : Platform) (op : Operation) (rcfg : RequestConfig.t) (value : string),
       process_env_API_URL = Some value ->
       head (events (call op rcfg))
       = Some (NewURL (RequestConfig.endpoint rcfg) value)).
Proof.
  intros Hclaim.
  specialize (Hclaim (example_platform (Some "") example_parse
                        (Return (example_response 200 "users")))
                (Static BaseApiService.GET) (example_config None None JUndefined) ""
                eq_refl).
  vm_compute in Hclaim. discriminate Hclaim.
Qed.

(** ** The scenarios of the specification *)

Example get_users_scenario :
  @BaseApiService.get (answering 200 "users")
    (example_config (Some [("page", Some "2"); ("limit", Some "10")]) None JUndefined)
  = ([NewURL "/users" "http://localhost:3001";
      Fetch (users_url [("page", "2"); ("limit", "10")])
        {| RequestInit.method := "GET";
           RequestInit.headers := {[ "Content-Type" := "application/json" ]};
           RequestInit.body := None |}],
     Return (JObj [("message", JStr "ok"); ("data", JArr [JStr "Ada"])])).
Proof. vm_compute. reflexivity. Qed.

Example post_users_scenario :
  outcome (@BaseApiService.post (answering 400 "invalid")
             (example_config None None (JObj [("name", JStr "Ada")])))
  = Throw (Error "invalid name"
             {| Cause.status := 400; Cause.statusText := "";
                Cause.url := "http://localhost:3001/users";
                Cause.errors := JObj [("name", JStr "required")] |}).
Proof. reflexivity. Qed.

Example undefined_query_value_skipped :
  (fetched (@BaseApiService.get (answering 200 "users")
      (example_config (Some [("page", Some "2"); ("search", None); ("limit", Some "10")])
         None JUndefined))).*1
  = [users_url [("page", "2"); ("limit", "10")]].
Proof. vm_compute. reflexivity. Qed.


(** ** Failures before and after the request *)

Section Failures.
Context `{Platform}.
Import BaseApiService.

Lemma JsVal_nested_ind (P : JsVal -> Prop) :
  P JUndefined -> P JNull -> (forall b, P (JBool b)) -> (forall n, P (JNum n)) ->
  (forall s, P (JStr s)) ->
  (forall elems, Forall P elems -> P (JArr elems)) ->
  (forall props, Forall (fun kv => P kv.2) props -> P (JObj props)) ->
  (forall f, P (JFile f)) ->
  forall v, P v.
Proof.
  intros Hu Hn Hb Hnum Hs Ha Ho Hf. fix IH 1. intros v.
  destruct v as [| |b|n|s|elems|props|f];
    [exact Hu|exact Hn|apply Hb|apply Hnum|apply Hs| | |apply Hf].
  - apply Ha. induction elems as [|x rest IHrest]; constructor; [apply IH|exact IHrest].
  - apply Ho. induction props as [|[k x] rest IHrest]; constructor; [apply IH|exact IHrest].
Qed.

Lemma ToString_throws (v : JsVal) (e : JsError) :
  ToString v = Throw e -> e = TypeError.
Proof.
  revert e. induction v as [| |b|n|s|elems IHelems|props _|f] using JsVal_nested_ind;
    intros e; simpl; try discriminate.
  - destruct b; discriminate.
  - induction IHelems as [|x rest Hx _ IHrest]; [discriminate|].
    assert (Helem : forall e',
      match x with JUndefined | JNull => Return "" | _ => ToString x end = Throw e' ->
      e' = TypeError).
    { intros e'. destruct x; try discriminate; apply Hx. }
    destruct (match x with JUndefined | JNull => Return "" | _ => ToString x end) as [s|e0].
    + destruct rest as [|y rest']; [discriminate|].
      revert IHrest.
      match goal with
      | |- (?j = _ -> _) -> _ => destruct j as [r|e1]
      end; [discriminate|].
      intros IHrest Heq. apply IHrest. congruence.
    + intros Heq. apply Helem. congruence.
  - destruct (lookup_property props "toString"); [|discriminate].
    intros Heq. congruence.
Qed.

Lemma Error_new_cases (message : JsVal) (cause : Cause.t) :
  match Error_new message cause with
  | Return error => exists text, error = Error text cause
  | Throw e => e = TypeError
  end.
Proof.
  unfold Error_new.
  destruct message as [| |b|n|s|elems|props|f];
    try (eexists; reflexivity);
    match goal with
    | |- context [ToString ?v] => destruct (ToString v) as [t|e] eqn:Htext
    end;
    try (eexists; reflexivity); exact (ToString_throws _ _ Htext).
Qed.

(** How [handleResponse] can end: it returns the parsed body of a response
    that is ok; it throws the parser's failure; or, for a response that is
    not ok, a TypeError or an Error whose cause is read off the response. *)
Lemma handleResponse_outcomes (r : Response.t) :
  match outcome (handleResponse r) with
  | Return v => Response.ok r = true /\ JSON_parse (Response.body r) = Return v
  | Throw e =>
      JSON_parse (Response.body r) = Throw e
      \/ (Response.ok r = false
          /\ exists json,
               JSON_parse (Response.body r) = Return json
               /\ (e = TypeError
                   \/ exists text errors,
                        Get json "errors" = Return errors
                        /\ e = Error text
                                 {| Cause.status := Response.status r;
                                    Cause.statusText := Response.statusText r;
                                    Cause.url := Response.url r;
                                    Cause.errors := errors |}))
  end.
Proof.
  unfold handleResponse, Response_json.
  destruct (JSON_parse (Response.body r)) as [json|e]; [|left; reflexivity].
  rewrite bind_lift_return.
  destruct (Response.ok r); cbn [negb]; [split; reflexivity|].
  unfold Get. destruct (OwnProperties json) as [props|e] eqn:Hown.
  - rewrite !bind_lift_return.
    match goal with
    | |- context [Error_new ?m ?c] => pose proof (Error_new_cases m c) as Hnew;
                                      destruct (Error_new m c) as [error|e]
    end.
    + rewrite bind_lift_return. cbn [outcome throw snd].
      destruct Hnew as [text ->].
      right. split; [reflexivity|]. exists json. split; [reflexivity|].
      right. eexists _, _. rewrite Hown. split; reflexivity.
    + cbn. right. split; [reflexivity|]. exists json. split; [reflexivity|].
      left. exact Hnew.
  - cbn. right. split; [reflexivity|]. exists json. split; [reflexivity|].
    left. destruct json; simpl in Hown; congruence.
Qed.

(** An operation either stops before any request, throwing, or issues one
    request and ends as [respond] says. *)
Lemma call_cases (op : Operation) (rcfg : RequestConfig.t) :
  (fetched (call op rcfg) = [] /\ exists e, outcome (call op rcfg) = Throw e)
  \/ (exists u init,
        fetched (call op rcfg) = [(u, init)]
        /\ outcome (call op rcfg) = respond u init).
Proof.
  destruct (call_invoke op rcfg) as (m & rcfg' & -> & _).
  rewrite invoke_shape. cbv zeta.
  destruct (URL_parse (RequestConfig.endpoint rcfg') API_URL) as [u0|e];
    [|left; split; [reflexivity|exists e; reflexivity]].
  destruct (request m rcfg' u0) as [[u init]|e];
    [|left; split; [reflexivity|exists e; reflexivity]].
  right. exists u, init. split; reflexivity.
Qed.

(** X4: an endpoint the URL parser rejects makes every verb operation fail
    with the parser's error, and no request is issued. *)
Theorem invalid_url_propagates (op : Operation) (rcfg : RequestConfig.t) (e : JsError) :
  URL_parse (RequestConfig.endpoint rcfg) API_URL = Throw e ->
  outcome (call op rcfg) = Throw e /\ fetched (call op rcfg) = [].
Proof.
  intros Hparse.
  destruct (call_invoke op rcfg) as (m & rcfg' & -> & Hendpoint).
  rewrite invoke_shape. cbv zeta. rewrite Hendpoint, Hparse. split; reflexivity.
Qed.

(** X5: a failure of the network is the failure of the verb operation,
    unchanged. *)
Theorem network_failure_propagates (op : Operation) (rcfg : RequestConfig.t)
    (u0 u : URL) (init : RequestInit.t) (e : JsError) :
  URL_parse (RequestConfig.endpoint rcfg) API_URL = Return u0 ->
  request_of op rcfg u0 = Return (u, init) ->
  network u init = Throw e ->
  fetched (call op rcfg) = [(u, init)]
  /\ outcome (call op rcfg) = Throw e.
Proof.
  intros Hparse Hreq Hnet.
  destruct (call_issues op rcfg u0 u init Hparse Hreq) as [Hfetched ->].
  split; [exact Hfetched|].
  unfold respond. rewrite Hnet. reflexivity.
Qed.

(** X6: no verb operation issues more than one request. *)
Theorem at_most_one_request (op : Operation) (rcfg : RequestConfig.t) :
  (length (fetched (call op rcfg)) <= 1)%nat.
Proof.
  destruct (call_cases op rcfg) as [[-> _]|(u & init & -> & _)]; simpl; lia.
Qed.

(** X7: a verb operation returns a value only if it issued a request, the
    response had a status in 200-299 and the value is the parsed body. *)
Theorem returned_value_origin (op : Operation) (rcfg : RequestConfig.t) (v : JsVal) :
  outcome (call op rcfg) = Return v ->
  exists u init r,
    fetched (call op rcfg) = [(u, init)]
    /\ network u init = Return r
    /\ 200 <= Response.status r <= 299
    /\ JSON_parse (Response.body r) = Return v.
Proof.
  intros Hout.
  destruct (call_cases op rcfg) as [[_ [e He]]|(u & init & Hfetched & Hrespond)];
    [congruence|].
  rewrite Hrespond in Hout. unfold respond in Hout.
  destruct (network u init) as [r|e] eqn:Hnet; [|discriminate].
  pose proof (handleResponse_outcomes r) as Hcases. rewrite Hout in Hcases.
  destruct Hcases as [Hok Hparse].
  exists u, init, r. repeat split; try assumption; apply ok_range, Hok.
Qed.

(** X8: when a verb operation throws an Error with a cause although the
    body parsed, the response's status is outside 200-299 and the cause
    holds the response's status, statusText and url and the body's
    [errors]. *)
Theorem error_cause_from_response (op : Operation) (rcfg : RequestConfig.t)
    (u : URL) (init : RequestInit.t) (r : Response.t) (json : JsVal)
    (text : string) (cause : Cause.t) :
  (u, init) ∈ fetched (call op rcfg) ->
  network u init = Return r ->
  JSON_parse (Response.body r) = Return json ->
  outcome (call op rcfg) = Throw (Error text cause) ->
  ~ (200 <= Response.status r <= 299)
  /\ Cause.status cause = Response.status r
  /\ Cause.statusText cause = Response.statusText r
  /\ Cause.url cause = Response.url r
  /\ Get json "errors" = Return (Cause.errors cause).
Proof.
  intros Hin Hnet Hparse Hout.
  rewrite (call_outcome op rcfg u init Hin) in Hout.
  unfold respond in Hout. rewrite Hnet in Hout.
  pose proof (handleResponse_outcomes r) as Hcases. rewrite Hout in Hcases.
  destruct Hcases as [Hthrow|(Hok & json' & Hparse' & [Htype|(text' & errors & Herrors & Herr)])];
    [congruence|discriminate|].
  assert (json' = json) by congruence. subst json'.
  inversion Herr; subst. simpl.
  repeat split; try reflexivity; [|exact Herrors].
  intros Hrange. apply ok_range in Hrange. congruence.
Qed.

(** X9: upload without data, or with [null] as data, throws a TypeError
    once the URL is parsed, and no request is issued. *)
Theorem upload_without_data (rcfg : RequestConfig.t) (u : URL) :
  URL_parse (RequestConfig.endpoint rcfg) API_URL = Return u ->
  RequestConfig.data rcfg = JUndefined \/ RequestConfig.data rcfg = JNull ->
  outcome (upload rcfg) = Throw TypeError /\ fetched (upload rcfg) = [].
Proof.
  intros Hparse Hdata.
  change (upload rcfg) with (invoke UPLOAD rcfg).
  rewrite invoke_shape. cbv zeta. rewrite Hparse. unfold request, build_form.
  destruct Hdata as [-> | ->]; split; reflexivity.
Qed.

End Failures.

(** ** More on requests *)

Section MoreRequests.
Context `{Platform}.
Import BaseApiService.

(** X10: for a failing response whose body has a [message] that is not a
    text, every verb operation throws an Error whose message is the text of
    that value: [[object Object]] for an object, the joined elements for a
    list. *)
Theorem failed_response_message_text (op : Operation) (rcfg : RequestConfig.t)
    (u0 u : URL) (init : RequestInit.t) (r : Response.t) (json message : JsVal)
    (text : string) :
  URL_parse (RequestConfig.endpoint rcfg) API_URL = Return u0 ->
  request_of op rcfg u0 = Return (u, init) ->
  network u init = Return r ->
  ~ (200 <= Response.status r <= 299) ->
  JSON_parse (Response.body r) = Return json ->
  Get json "message" = Return message ->
  message <> JUndefined ->
  ToString message = Return text ->
  fetched (call op rcfg) = [(u, init)]
  /\ exists cause, outcome (call op rcfg) = Throw (Error text cause).
Proof.
  intros Hparse Hreq Hnet Hstatus Hjson Hmessage Hdefined Htext.
  pose proof (not_in_range_not_ok r Hstatus) as Hok.
  destruct (Get_defined json "message" "errors" _ Hmessage) as [errors Herrors].
  destruct (call_issues op rcfg u0 u init Hparse Hreq) as [Hfetched ->].
  split; [exact Hfetched|].
  rewrite (respond_failure u init r json Hnet Hok Hjson), Hmessage, Herrors.
  unfold Error_new. destruct message; try contradiction; rewrite Htext; eexists; reflexivity.
Qed.

(** X11: get without a query, or with a query whose values are all
    [undefined], fetches the parsed URL as it is. *)
Theorem get_without_query (rcfg : RequestConfig.t) (u : URL) :
  URL_parse (RequestConfig.endpoint rcfg) API_URL = Return u ->
  (RequestConfig.query rcfg = None
   \/ exists q, RequestConfig.query rcfg = Some q
                /\ NoDup (q.*1) /\ Forall (fun kv => kv.2 = None) q) ->
  (fetched (get rcfg)).*1 = [u].
Proof.
  intros Hparse Hquery.
  assert (Hurl : append_query (RequestConfig.query rcfg) u = u).
  { destruct Hquery as [->|(q & -> & Hnd & Hnone)]; [reflexivity|].
    rewrite (append_query_entries q u Hnd).
    assert (Hentries : query_entries q = []).
    { clear Hnd. induction Hnone as [|[k v] rest Hv _ IH]; [reflexivity|].
      simpl in Hv. subst v. exact IH. }
    rewrite Hentries, app_nil_r. destruct u; reflexivity. }
  change (get rcfg) with (invoke GET rcfg).
  rewrite (invoke_issues GET rcfg u _ _ Hparse eq_refl). simpl. rewrite Hurl. reflexivity.
Qed.

(** X12: when the serializer gives [undefined] for config.data, as it does
    for data that is absent, post, put and patch still issue the request,
    with no body. *)
Theorem json_body_absent (rcfg : RequestConfig.t) (u : URL) :
  URL_parse (RequestConfig.endpoint rcfg) API_URL = Return u ->
  JSON_stringify (RequestConfig.data rcfg) = Return None ->
  Forall (fun f : RequestConfig.t -> Js JsVal =>
            exists init, fetched (f rcfg) = [(u, init)] /\ RequestInit.body init = None)
         [post; put; patch].
Proof.
  intros Hparse Hnone.
  repeat constructor.
  - eexists. split; [apply (invoke_issues POST rcfg u _ _ Hparse);
                     unfold request; rewrite Hnone; reflexivity|reflexivity].
  - eexists. split; [apply (invoke_issues PUT rcfg u _ _ Hparse);
                     unfold request; rewrite Hnone; reflexivity|reflexivity].
  - eexists. split; [apply (invoke_issues PATCH rcfg u _ _ Hparse);
                     unfold request; rewrite Hnone; reflexivity|reflexivity].
Qed.

(** X13: each static method issues its request with the method of its
    name, and upload issues it as POST, whenever the URL parses and the
    request can be built. *)
Theorem request_method (m : Method) (rcfg : RequestConfig.t) (u0 : URL) :
  URL_parse (RequestConfig.endpoint rcfg) API_URL = Return u0 ->
  (exists req, request m rcfg u0 = Return req) ->
  exists u init,
    fetched (invoke m rcfg) = [(u, init)]
    /\ RequestInit.method init =
       match m with
       | GET => "GET"
       | POST | UPLOAD => "POST"
       | PUT => "PUT"
       | PATCH => "PATCH"
       | DELETE => "DELETE"
       end.
Proof.
  intros Hparse [[u init] Hreq].
  exists u, init. split; [exact (invoke_issues m rcfg u0 u init Hparse Hreq)|].
  unfold request in Hreq. destruct m;
    repeat match type of Hreq with
           | context [match ?c with Return _ => _ | Throw _ => _ end] => destruct c
           end;
    inversion Hreq; reflexivity.
Qed.

(** X14: when Object.keys(config.data) is empty, as for an empty object,
    upload sends a form without fields. *)
Theorem upload_empty_form (rcfg : RequestConfig.t) (u : URL) :
  URL_parse (RequestConfig.endpoint rcfg) API_URL = Return u ->
  Object_keys (RequestConfig.data rcfg) = Return [] ->
  fetched (upload rcfg) =
  [(u, {| RequestInit.method := "POST";
          RequestInit.headers := getHeaders (RequestConfig.headers rcfg);
          RequestInit.body := Some (BodyForm []) |})].
Proof.
  intros Hparse Hkeys.
  apply (invoke_issues UPLOAD rcfg u); [exact Hparse|].
  unfold request, build_form. rewrite Hkeys. reflexivity.
Qed.

Lemma build_form_text_suffix (props l : list (string * JsVal)) (form : FormData) :
  NoDup (props.*1) -> l ⊆ props ->
  Forall (fun kv => exists fld, to_field kv.2 = Return fld) l ->
  exists fields,
    foldC (fun form key =>
             match Get (JObj props) key with
             | Return value => FormData_append form key value
             | Throw e => Throw e
             end) form (l.*1) = Return (form ++ fields)
    /\ Forall2 (fun kv fld => fld.1 = kv.1 /\ to_field kv.2 = Return fld.2) l fields.
Proof.
  intros Hnd. revert form.
  induction l as [|[k v] rest IH]; intros form Hsub Hconv.
  - exists []. simpl. rewrite app_nil_r. split; [reflexivity|constructor].
  - apply Forall_cons in Hconv as [[fld Hfld] Hconv]. simpl in Hfld.
    assert (Hrest : rest ⊆ props) by (intros x Hx; apply Hsub; right; exact Hx).
    rewrite fmap_cons. cbn [foldC fst]. unfold Get at 1. cbn [OwnProperties].
    rewrite (lookup_property_elem props k v Hnd) by (apply Hsub; left).
    cbn [default]. change (id v) with v.
    rewrite FormData_append_to_field, Hfld.
    destruct (IH (form ++ [(k, fld)]) Hrest Hconv) as (fields & -> & Hfields).
    exists ((k, fld) :: fields). rewrite <- app_assoc. split; [reflexivity|].
    constructor; [split; [reflexivity|exact Hfld]|exact Hfields].
Qed.

(** X15: upload sends one field per entry of a well-formed object, in
    order, under the entry's key, and a value that is not a file goes as
    its text: [true], [null], and [[object Object]] for a nested object. *)
Theorem upload_values_as_text (rcfg : RequestConfig.t) (props : list (string * JsVal))
    (u : URL) :
  RequestConfig.data rcfg = JObj props ->
  NoDup (props.*1) ->
  Forall (fun kv => exists fld, to_field kv.2 = Return fld) props ->
  URL_parse (RequestConfig.endpoint rcfg) API_URL = Return u ->
  exists form,
    fetched (upload rcfg) =
    [(u, {| RequestInit.method := "POST";
            RequestInit.headers := getHeaders (RequestConfig.headers rcfg);
            RequestInit.body := Some (BodyForm form) |})]
    /\ Forall2 (fun kv fld => fld.1 = kv.1 /\ to_field kv.2 = Return fld.2) props form.
Proof.
  intros Hdata Hnd Hconv Hparse.
  destruct (build_form_text_suffix props props [] Hnd) as (form & Hfold & Hfields);
    [reflexivity|exact Hconv|].
  exists form. split; [|exact Hfields].
  apply (invoke_issues UPLOAD rcfg u); [exact Hparse|].
  unfold request, build_form. rewrite Hdata. cbn [Object_keys OwnProperties].
  rewrite Hfold. reflexivity.
Qed.

End MoreRequests.

(** ** More on headers *)

Section MoreHeaders.
Context `{Platform}.
Import BaseApiService.

(** X16: getHeaders adds no key but Content-Type: its keys are those of
    the custom headers and Content-Type. *)
Theorem getHeaders_keys (custom : option (gmap string string)) :
  dom (getHeaders custom) = dom (default ∅ custom) ∪ {[ "Content-Type" ]}.
Proof.
  unfold getHeaders, spread. destruct custom as [h|]; simpl.
  - rewrite dom_union_L, dom_singleton_L. reflexivity.
  - rewrite dom_singleton_L, dom_empty_L, (left_id_L ∅ (∪)). reflexivity.
Qed.

(** X17: getHeaders applied to its own result changes nothing. *)
Theorem getHeaders_idempotent (custom : option (gmap string string)) :
  getHeaders (Some (getHeaders custom)) = getHeaders custom.
Proof.
  apply map_eq. intros key. rewrite getHeaders_lookup.
  destruct (getHeaders custom !! key) as [v|] eqn:Hkey; [reflexivity|].
  unfold getHeaders, spread in Hkey. destruct custom as [h|].
  - apply lookup_union_None in Hkey as [_ Hdefault]. exact Hdefault.
  - exact Hkey.
Qed.

(** X18: through every static method, each header the caller gives
    reaches the request handed to fetch with the caller's value,
    Content-Type included, whenever the URL parses and the request can be
    built. *)
Theorem caller_headers_reach_request (m : Method) (rcfg : RequestConfig.t)
    (custom : gmap string string) (u0 : URL) (key value : string) :
  RequestConfig.headers rcfg = Some custom ->
  custom !! key = Some value ->
  URL_parse (RequestConfig.endpoint rcfg) API_URL = Return u0 ->
  (exists req, request m rcfg u0 = Return req) ->
  exists u init,
    fetched (invoke m rcfg) = [(u, init)]
    /\ RequestInit.headers init !! key = Some value.
Proof.
  intros Hcustom Hkey Hparse [[u init] Hreq].
  exists u, init. split; [exact (invoke_issues m rcfg u0 u init Hparse Hreq)|].
  apply request_headers in Hreq.
  rewrite Hreq, Hcustom, getHeaders_lookup, Hkey. reflexivity.
Qed.

(** X19: an operation of withCredentials() issues a request exactly when
    the static method of the same name does, to the same URL, with the same
    method and body; only the headers differ. *)
Theorem withCredentials_same_request (m : CredentialedMethod) (rcfg : RequestConfig.t) :
  Forall2 (fun static credentialed =>
             credentialed.1 = static.1
             /\ RequestInit.method credentialed.2 = RequestInit.method static.2
             /\ RequestInit.body credentialed.2 = RequestInit.body static.2)
          (fetched (invoke (method_of m) rcfg))
          (fetched (withCredentials m rcfg)).
Proof.
  destruct (URL_parse (RequestConfig.endpoint rcfg) API_URL) as [u0|e] eqn:Hparse.
  - destruct (request (method_of m) rcfg u0) as [[u init0]|e] eqn:Hreq.
    + rewrite (invoke_issues _ rcfg u0 u init0 Hparse Hreq),
        (withCredentials_issues m rcfg u0 u init0 Hparse Hreq).
      repeat constructor.
    + unfold withCredentials. rewrite !invoke_shape. cbv zeta.
      change (RequestConfig.endpoint (RequestConfig.with_headers rcfg _))
        with (RequestConfig.endpoint rcfg).
      rewrite Hparse, request_with_headers, Hreq. constructor.
  - unfold withCredentials. rewrite !invoke_shape. cbv zeta.
    change (RequestConfig.endpoint (RequestConfig.with_headers rcfg _))
      with (RequestConfig.endpoint rcfg).
    rewrite Hparse. constructor.
Qed.

(** X20: through an operation of withCredentials(), every caller header
    other than Content-Type and credentials reaches the request as the
    caller gave it, and no other key appears, whenever the URL parses and
    the static method of the same name can build its request. *)
Theorem withCredentials_keeps_caller_headers (m : CredentialedMethod)
    (rcfg : RequestConfig.t) (u0 : URL) (key : string) :
  URL_parse (RequestConfig.endpoint rcfg) API_URL = Return u0 ->
  (exists req, request (method_of m) rcfg u0 = Return req) ->
  key <> "Content-Type" ->
  key <> "credentials" ->
  exists u init,
    fetched (withCredentials m rcfg) = [(u, init)]
    /\ RequestInit.headers init !! key = default ∅ (RequestConfig.headers rcfg) !! key.
Proof.
  intros Hparse [[u init0] Hreq] Hct Hcred.
  eexists u, _. split; [exact (withCredentials_issues m rcfg u0 u init0 Hparse Hreq)|].
  cbn [RequestInit.headers]. rewrite credentialed_headers_lookup.
  rewrite lookup_insert_ne by congruence.
  rewrite lookup_singleton_ne by congruence. reflexivity.
Qed.

End MoreHeaders.

(** ** The properties above on examples *)

Lemma get_request_url_witness :
  fetched (@BaseApiService.get (answering 200 "users")
             (example_config (Some [("page", Some "2"); ("search", None); ("limit", Some "10")])
                None JUndefined))
  = [(users_url [("page", "2"); ("limit", "10")],
      {| RequestInit.method := "GET";
         RequestInit.headers := BaseApiService.getHeaders None;
         RequestInit.body := None |})].
Proof.
  apply (@get_request_url (answering 200 "users")
           (example_config (Some [("page", Some "2"); ("search", None); ("limit", Some "10")])
              None JUndefined)
           [("page", Some "2"); ("search", None); ("limit", Some "10")]
           (users_url [])).
  - reflexivity.
  - apply (bool_decide_unpack _). vm_compute. reflexivity.
  - reflexivity.
Defined.

Lemma query_ignored_outside_get_witness :
  @URL_parse (answering 200 "users") "/users" (@BaseApiService.API_URL (answering 200 "users"))
  = Return (users_url []).
Proof.
  apply (@query_ignored_outside_get (answering 200 "users") BaseApiService.DELETE
           (example_config (Some [("page", Some "2")]) None JUndefined)
           (users_url [])
           {| RequestInit.method := "DELETE";
              RequestInit.headers := BaseApiService.getHeaders None;
              RequestInit.body := None |}).
  - discriminate.
  - vm_compute. left.
Defined.

Lemma get_without_query_witness :
  (fetched (@BaseApiService.get (answering 200 "users")
              (example_config (Some [("page", None); ("search", None)]) None JUndefined))).*1
  = [users_url []].
Proof.
  apply (@get_without_query (answering 200 "users")
           (example_config (Some [("page", None); ("search", None)]) None JUndefined)
           (users_url [])).
  - reflexivity.
  - right. exists [("page", None); ("search", None)].
    split; [reflexivity|split].
    + apply (bool_decide_unpack _). vm_compute. reflexivity.
    + repeat constructor.
Defined.

Lemma invalid_url_propagates_witness :
  let rcfg :=
    {| RequestConfig.endpoint := "http://"; RequestConfig.data := JObj [("name", JStr "Ada")];
       RequestConfig.headers := None; RequestConfig.query := None |} in
  let P := strict_url_platform (Return (example_response 200 "users")) in
  outcome (@call P (Static BaseApiService.POST) rcfg)
  = Throw (Rejected "TypeError" "Invalid URL")
  /\ fetched (@call P (Static BaseApiService.POST) rcfg) = [].
Proof.
  intros rcfg P.
  apply (@invalid_url_propagates P (Static BaseApiService.POST) rcfg).
  reflexivity.
Defined.

Lemma network_failure_propagates_witness :
  let rcfg := example_config None None (JObj [("name", JStr "Ada")]) in
  let init :=
    {| RequestInit.method := "PUT";
       RequestInit.headers :=
         {[ "Content-Type" := "application/json"; "credentials" := "include" ]};
       RequestInit.body := Some (BodyText "data") |} in
  fetched (@call offline (Credentialed BaseApiService.cPut) rcfg) = [(users_url [], init)]
  /\ outcome (@call offline (Credentialed BaseApiService.cPut) rcfg)
     = Throw (Rejected "TypeError" "fetch failed").
Proof.
  intros rcfg init.
  apply (@network_failure_propagates offline (Credentialed BaseApiService.cPut) rcfg
           (users_url []) (users_url []) init).
  - reflexivity.
  - vm_compute. reflexivity.
  - reflexivity.
Defined.

Lemma upload_without_data_witness :
  outcome (@BaseApiService.upload (answering 200 "users") (example_config None None JUndefined))
  = Throw TypeError
  /\ fetched (@BaseApiService.upload (answering 200 "users")
                (example_config None None JUndefined)) = [].
Proof.
  apply (@upload_without_data (answering 200 "users")
           (example_config None None JUndefined) (users_url [])).
  - reflexivity.
  - left. reflexivity.
Defined.

Lemma returned_value_origin_witness :
  exists u init r,
    fetched (@call (answering 201 "users") (Static BaseApiService.PUT)
               (example_config None None (JObj [("name", JStr "Ada")])))
    = [(u, init)]
    /\ @network (answering 201 "users") u init = Return r
    /\ 200 <= Response.status r <= 299
    /\ @JSON_parse (answering 201 "users") (Response.body r)
       = Return (JObj [("message", JStr "ok"); ("data", JArr [JStr "Ada"])]).
Proof.
  apply (@returned_value_origin (answering 201 "users") (Static BaseApiService.PUT)
           (example_config None None (JObj [("name", JStr "Ada")]))).
  reflexivity.
Defined.

Lemma error_cause_from_response_witness :
  ~ (200 <= Response.status (example_response 400 "invalid") <= 299)
  /\ Cause.status
       {| Cause.status := 400; Cause.statusText := "";
          Cause.url := "http://localhost:3001/users";
          Cause.errors := JObj [("name", JStr "required")] |} = 400
  /\ Cause.statusText
       {| Cause.status := 400; Cause.statusText := "";
          Cause.url := "http://localhost:3001/users";
          Cause.errors := JObj [("name", JStr "required")] |} = ""
  /\ Cause.url
       {| Cause.status := 400; Cause.statusText := "";
          Cause.url := "http://localhost:3001/users";
          Cause.errors := JObj [("name", JStr "required")] |} = "http://localhost:3001/users"
  /\ @Get (answering 400 "invalid")
       (JObj [("message", JStr "invalid name");
              ("errors", JObj [("name", JStr "required")])]) "errors"
     = Return (JObj [("name", JStr "required")]).
Proof.
  apply (@error_cause_from_response (answering 400 "invalid") (Static BaseApiService.PATCH)
           (example_config None None (JObj [("name", JStr "Ada")]))
           (users_url [])
           {| RequestInit.method := "PATCH";
              RequestInit.headers := BaseApiService.getHeaders None;
              RequestInit.body := Some (BodyText "data") |}
           (example_response 400 "invalid")
           (JObj [("message", JStr "invalid name");
                  ("errors", JObj [("name", JStr "required")])])
           "invalid name").
  - vm_compute. left.
  - reflexivity.
  - reflexivity.
  - reflexivity.
Defined.

Lemma null_body_type_error_witness :
  let rcfg := example_config None None (JObj [("name", JStr "Ada")]) in
  let init :=
    {| RequestInit.method := "PATCH";
       RequestInit.headers := BaseApiService.getHeaders None;
       RequestInit.body := Some (BodyText "data") |} in
  fetched (@call (answering 500 "null") (Static BaseApiService.PATCH) rcfg)
  = [(users_url [], init)]
  /\ outcome (@call (answering 500 "null") (Static BaseApiService.PATCH) rcfg)
     = Throw TypeError.
Proof.
  intros rcfg init.
  apply (@null_body_type_error (answering 500 "null") (Static BaseApiService.PATCH) rcfg
           (users_url []) (users_url []) init (example_response 500 "null")).
  - reflexivity.
  - reflexivity.
  - reflexivity.
  - simpl. lia.
  - reflexivity.
Defined.

Lemma failed_response_without_message_witness :
  let rcfg := example_config None None (JObj [("title", JStr "logo")]) in
  let init :=
    {| RequestInit.method := "POST";
       RequestInit.headers := BaseApiService.getHeaders None;
       RequestInit.body := Some (BodyForm [("title", FieldText "logo")]) |} in
  fetched (@call (answering_edge 422 "no message") (Static BaseApiService.UPLOAD) rcfg)
  = [(users_url [], init)]
  /\ exists cause,
       outcome (@call (answering_edge 422 "no message") (Static BaseApiService.UPLOAD) rcfg)
       = Throw (Error "" cause).
Proof.
  intros rcfg init.
  apply (@failed_response_without_message (answering_edge 422 "no message")
           (Static BaseApiService.UPLOAD) rcfg (users_url []) (users_url []) init
           (example_response 422 "no message")
           (JObj [("errors", JArr [JStr "late"])])).
  - reflexivity.
  - reflexivity.
  - reflexivity.
  - simpl. lia.
  - reflexivity.
  - reflexivity.
Defined.

Lemma failed_response_message_text_witness :
  let rcfg := example_config None None JUndefined in
  let init :=
    {| RequestInit.method := "DELETE";
       RequestInit.headers := BaseApiService.getHeaders None;
       RequestInit.body := None |} in
  fetched (@call (answering_edge 500 "object message") (Static BaseApiService.DELETE) rcfg)
  = [(users_url [], init)]
  /\ exists cause,
       outcome (@call (answering_edge 500 "object message")
                  (Static BaseApiService.DELETE) rcfg)
       = Throw (Error "[object Object]" cause).
Proof.
  intros rcfg init.
  apply (@failed_response_message_text (answering_edge 500 "object message")
           (Static BaseApiService.DELETE) rcfg (users_url []) (users_url []) init
           (example_response 500 "object message")
           (JObj [("message", JObj [("code", JStr "E1")])])
           (JObj [("code", JStr "E1")])).
  - reflexivity.
  - reflexivity.
  - reflexivity.
  - simpl. lia.
  - reflexivity.
  - reflexivity.
  - discriminate.
  - reflexivity.
Defined.

Lemma json_body_absent_witness :
  Forall (fun f : RequestConfig.t -> Js JsVal =>
            exists init,
              fetched (f (example_config None None JUndefined)) = [(users_url [], init)]
              /\ RequestInit.body init = None)
         [@BaseApiService.post (answering 200 "users");
          @BaseApiService.put (answering 200 "users");
          @BaseApiService.patch (answering 200 "users")].
Proof.
  apply (@json_body_absent (answering 200 "users") (example_config None None JUndefined)
           (users_url [])).
  - reflexivity.
  - reflexivity.
Defined.

Lemma request_method_witness :
  exists u init,
    fetched (@BaseApiService.invoke (answering 200 "users") BaseApiService.UPLOAD
               (example_config None None (JObj [("title", JStr "logo")])))
    = [(u, init)]
    /\ RequestInit.method init = "POST".
Proof.
  apply (@request_method (answering 200 "users") BaseApiService.UPLOAD
           (example_config None None (JObj [("title", JStr "logo")])) (users_url [])).
  - reflexivity.
  - eexists. reflexivity.
Defined.

Lemma upload_empty_form_witness :
  fetched (@BaseApiService.upload (answering 200 "users") (example_config None None (JObj [])))
  = [(users_url [],
      {| RequestInit.method := "POST";
         RequestInit.headers := BaseApiService.getHeaders None;
         RequestInit.body := Some (BodyForm []) |})].
Proof.
  apply (@upload_empty_form (answering 200 "users") (example_config None None (JObj []))
           (users_url [])).
  - reflexivity.
  - reflexivity.
Defined.

Lemma upload_values_as_text_witness :
  let props :=
    [("public", JBool true); ("owner", JNull); ("meta", JObj [("tag", JStr "x")])] in
  exists form,
    fetched (@BaseApiService.upload (answering 200 "users")
               (example_config None None (JObj props)))
    = [(users_url [],
        {| RequestInit.method := "POST";
           RequestInit.headers := BaseApiService.getHeaders None;
           RequestInit.body := Some (BodyForm form) |})]
    /\ Forall2 (fun kv fld => fld.1 = kv.1
                             /\ @to_field (answering 200 "users") kv.2 = Return fld.2)
               props form.
Proof.
  intros props.
  apply (@upload_values_as_text (answering 200 "users")
           (example_config None None (JObj props)) props (users_url [])).
  - reflexivity.
  - apply (bool_decide_unpack _). vm_compute. reflexivity.
  - repeat constructor; eexists; reflexivity.
  - reflexivity.
Defined.

Example upload_nested_object_text :
  fetched (@BaseApiService.upload (answering 200 "users")
             (example_config None None
                (JObj [("public", JBool true); ("owner", JNull);
                       ("meta", JObj [("tag", JStr "x")])])))
  = [(users_url [],
      {| RequestInit.method := "POST";
         RequestInit.headers := BaseApiService.getHeaders None;
         RequestInit.body :=
           Some (BodyForm [("public", FieldText "true"); ("owner", FieldText "null");
                           ("meta", FieldText "[object Object]")]) |})].
Proof. vm_compute. reflexivity. Qed.

Lemma caller_headers_reach_request_witness :
  exists u init,
    fetched (@BaseApiService.invoke (answering 200 "users") BaseApiService.POST
               (example_config None
                  (Some {[ "Content-Type" := "text/csv"; "X-Trace" := "1" ]}) (JStr "a,b")))
    = [(u, init)]
    /\ RequestInit.headers init !! "Content-Type" = Some "text/csv".
Proof.
  apply (@caller_headers_reach_request (answering 200 "users") BaseApiService.POST
           (example_config None (Some {[ "Content-Type" := "text/csv"; "X-Trace" := "1" ]})
              (JStr "a,b"))
           {[ "Content-Type" := "text/csv"; "X-Trace" := "1" ]}
           (users_url [])).
  - reflexivity.
  - reflexivity.
  - reflexivity.
  - eexists. reflexivity.
Defined.

Example withCredentials_post_request :
  fetched (@BaseApiService.withCredentials (answering 200 "users") BaseApiService.cPost
             (example_config None (Some {[ "X-Trace" := "1" ]}) (JStr "a")))
  = [(users_url [],
      {| RequestInit.method := "POST";
         RequestInit.headers :=
           {[ "Content-Type" := "application/json"; "credentials" := "include";
              "X-Trace" := "1" ]};
         RequestInit.body := Some (BodyText "data") |})].
Proof. vm_compute. reflexivity. Qed.

Lemma withCredentials_keeps_caller_headers_witness :
  exists u init,
    fetched (@BaseApiService.withCredentials (answering 200 "users") BaseApiService.cGet
               (example_config None (Some {[ "credentials" := "omit"; "X-Trace" := "1" ]})
                  JUndefined))
    = [(u, init)]
    /\ RequestInit.headers init !! "X-Trace"
       = default ∅ (Some ({[ "credentials" := "omit"; "X-Trace" := "1" ]}
                           : gmap string string)) !! "X-Trace".
Proof.
  apply (@withCredentials_keeps_caller_headers (answering 200 "users") BaseApiService.cGet
           (example_config None (Some {[ "credentials" := "omit"; "X-Trace" := "1" ]})
              JUndefined)
           (users_url [])).
  - reflexivity.
  - eexists. reflexivity.
  - discriminate.
  - discriminate.
Defined.
